(** * Tulip Foundation: donation form and admin dashboard

    A shallow embedding of the record lifecycle implemented by the admin
    dashboard component (record types, [escapeCSV], [calculateStats], the
    status handlers, [handleExportData], the two filtered views) and by the
    donation form's [onSubmit], followed by the properties proved of them.

    Conventions of the embedding:
    - a JavaScript string is a [string] (a sequence of 8-bit characters);
      the only characters the code inspects (comma, double quote, the
      ASCII letters, white space) are ASCII;
    - a JavaScript [number] is a [Z] where the dashboard counts, compares
      or passes it on; [Binary64] takes the totals of [calculateStats] on
      binary64 values, where the order and the rounding of each addition
      show;
    - [string | null] is [option string];
    - what the runtime or an external service answers (the record store's
      replies, the payment gateway's result, [Math.random().toString(36)],
      the clock, the locale's date format) is an argument of the handler
      that consumes it;
    - a handler returns the next component state together with the effects
      it performed, in order. *)

From Stdlib Require Import String Ascii List ZArith Bool Lia.
From Stdlib Require Import DecimalString.
From Stdlib Require Import PrimFloat SpecFloat FloatOps.
Import ListNotations.
Open Scope string_scope.
Open Scope bool_scope.

(** ** JavaScript strings *)

Module JsString.

Definition dquote : ascii := ascii_of_nat 34.
Definition comma : ascii := ascii_of_nat 44.
Definition newline : ascii := ascii_of_nat 10.
Definition carriageReturn : ascii := ascii_of_nat 13.

Definition chr (c : ascii) : string := String c EmptyString.

(** [s.includes(t)] *)
Fixpoint includes (s t : string) : bool :=
  String.prefix t s ||
  match s with
  | EmptyString => false
  | String _ s' => includes s' t
  end.

(** The global replacement of [escapeCSV]: every double quote of [s]
    becomes two. *)
Fixpoint doubleQuotes (s : string) : string :=
  match s with
  | EmptyString => EmptyString
  | String c s' =>
      if Ascii.eqb c dquote
      then String dquote (String dquote (doubleQuotes s'))
      else String c (doubleQuotes s')
  end.

Definition isUpper (c : ascii) : bool :=
  let n := nat_of_ascii c in (65 <=? n)%nat && (n <=? 90)%nat.

Definition lowerChar (c : ascii) : ascii :=
  if isUpper c then ascii_of_nat (nat_of_ascii c + 32) else c.

(** [s.toLowerCase()] on ASCII text. *)
Fixpoint toLowerCase (s : string) : string :=
  match s with
  | EmptyString => EmptyString
  | String c s' => String (lowerChar c) (toLowerCase s')
  end.

(** White space removed by [trim]: tab, line feed, vertical tab, form
    feed, carriage return and space. *)
Definition isSpace (c : ascii) : bool :=
  let n := nat_of_ascii c in
  ((9 <=? n)%nat && (n <=? 13)%nat) || (n =? 32)%nat.

Fixpoint trimStart (s : string) : string :=
  match s with
  | EmptyString => EmptyString
  | String c s' => if isSpace c then trimStart s' else s
  end.

Fixpoint trimEnd (s : string) : string :=
  match s with
  | EmptyString => EmptyString
  | String c s' =>
      match trimEnd s' with
      | EmptyString => if isSpace c then EmptyString else chr c
      | t => String c t
      end
  end.

(** [s.trim()] *)
Definition trim (s : string) : string := trimEnd (trimStart s).

(** [s.substring(a, b)]: the characters at indices [min a b] up to, not
    including, [max a b], clipped to the length of [s]. *)
Definition jsSubstring (a b : nat) (s : string) : string :=
  String.substring (Nat.min a b) (Nat.max a b - Nat.min a b) s.

(** [xs.join(sep)] *)
Fixpoint join (sep : string) (xs : list string) : string :=
  match xs with
  | [] => EmptyString
  | [x] => x
  | x :: rest => x ++ sep ++ join sep rest
  end.

(** [s.split(c)[0]] for a one-character separator: the text before the
    first [c], or all of [s] when there is none. *)
Fixpoint beforeFirst (c : ascii) (s : string) : string :=
  match s with
  | EmptyString => EmptyString
  | String d s' => if Ascii.eqb d c then EmptyString else String d (beforeFirst c s')
  end.

(** [x || d] on strings: the empty string is falsy. *)
Definition orStr (x d : string) : string :=
  match x with
  | EmptyString => d
  | _ => x
  end.

(** [x || d] for [x : string | null]. *)
Definition orStrOpt (x : option string) (d : string) : string :=
  match x with
  | Some s => orStr s d
  | None => d
  end.

(** A string is truthy when it is not empty. *)
Definition truthyStr (s : string) : bool :=
  match s with
  | EmptyString => false
  | _ => true
  end.

(** [x || 0] on numbers: zero is the only falsy integer. *)
Definition orZero (x : Z) : Z := if Z.eqb x 0 then 0%Z else x.

(** [String(n)] for a whole number [n] (below [10^21] in size, where
    JavaScript still prints every digit). *)
Definition stringOfZ (n : Z) : string := NilZero.string_of_int (Z.to_int n).

End JsString.

Import JsString.

(** ** CSV fields *)

Module Csv.

(** The values [escapeCSV] is applied to ([value: any]). *)
Inductive JsValue : Type :=
| JNull
| JUndefined
| JString (s : string)
| JNumber (n : Z)
| JBoolean (b : bool).

(** [value == null] *)
Definition isNullish (v : JsValue) : bool :=
  match v with
  | JNull | JUndefined => true
  | _ => false
  end.

(** [String(value)] *)
Definition jsToString (v : JsValue) : string :=
  match v with
  | JNull => "null"
  | JUndefined => "undefined"
  | JString s => s
  | JNumber n => stringOfZ n
  | JBoolean true => "true"
  | JBoolean false => "false"
  end.

Definition escapeCSV (value : JsValue) : string :=
  if isNullish value then EmptyString
  else
    let str := jsToString value in
    if includes str (chr comma) || includes str (chr dquote)
    then chr dquote ++ doubleQuotes str ++ chr dquote
    else str.

(** The characters RFC 4180 allows only inside an escaped field: the
    comma, the double quote and the two line-break characters. *)
Definition isLineBreak (c : ascii) : bool :=
  Ascii.eqb c carriageReturn || Ascii.eqb c newline.

Definition isSpecial (c : ascii) : bool :=
  Ascii.eqb c comma || Ascii.eqb c dquote || isLineBreak c.

Definition plainField (s : string) : bool :=
  negb (existsb isSpecial (list_ascii_of_string s)).

(** RFC 4180 reading of one field, used to state the round trip.  A field
    that opens with a double quote is an escaped field: it runs to the
    closing quote, and inside it a pair of double quotes stands for one.
    Any other field must hold no comma, double quote, carriage return or
    line feed, and is then taken as it is.  [None] is a malformed
    field. *)
Fixpoint unquoteBody (s : string) : option string :=
  match s with
  | EmptyString => None
  | String c rest =>
      if Ascii.eqb c dquote then
        match rest with
        | EmptyString => Some EmptyString
        | String c2 rest2 =>
            if Ascii.eqb c2 dquote
            then option_map (String dquote) (unquoteBody rest2)
            else None
        end
      else option_map (String c) (unquoteBody rest)
  end.

Definition rfc4180Unquote (field : string) : option string :=
  match field with
  | EmptyString => Some EmptyString
  | String c rest =>
      if Ascii.eqb c dquote then unquoteBody rest
      else if plainField field then Some field
           else None
  end.

End Csv.

Import Csv.

(** ** Handlers: component state, effects and exceptions *)

Module Handler.

(** What the success page receives through the router. *)
Record DonationData : Type := mkDonationData {
  dd_name : string;
  dd_email : string;
  dd_amount : Z;
  dd_designation : option string;
  dd_isAnonymous : bool
}.

(** The row the donation form hands to the record store. *)
Record DonationInsert : Type := mkDonationInsert {
  ins_first_name : string;
  ins_last_name : string;
  ins_email : string;
  ins_amount : Z;
  ins_designation : option string;
  ins_is_anonymous : bool;
  ins_payment_id : string;
  ins_donation_type : string;
  ins_status : string;
  ins_created_at : string
}.

(** The observable effects of a handler.  Calls of [console.log] are
    debugging output and are left out; [console.error] is kept, with its
    label and the error it prints. *)
Inductive Effect : Type :=
| ConsoleError (label : string) (err : string)
| ToastError (title : string) (description : option string)
| ToastSuccess (title : string) (description : option string)
| Download (filename : string) (content : string)
| CreatePaymentIntent (amount : Z) (description : string)
| ConfirmCardPayment (clientSecret : string) (name : string) (email : string)
| StoreInsert (table : string) (row : DonationInsert)
| Navigate (path : string) (donationData : DonationData) (transactionId : string).

(** A handler either runs to its end or throws an error value. *)
Inductive Outcome (A : Type) : Type :=
| Return (a : A)
| Throw (e : string).
Arguments Return {A} a.
Arguments Throw {A} e.

Section Monad.
Context {S : Type}.

Definition M (A : Type) : Type := S -> Outcome A * S * list Effect.

Definition ret {A} (a : A) : M A := fun s => (Return a, s, []).

Definition bind {A B} (m : M A) (k : A -> M B) : M B :=
  fun s =>
    match m s with
    | (Return a, s1, out1) =>
        let '(r, s2, out2) := k a s1 in (r, s2, (out1 ++ out2)%list)
    | (Throw e, s1, out1) => (Throw e, s1, out1)
    end.

Definition throw {A} (e : string) : M A := fun s => (Throw e, s, []).

Definition emit (x : Effect) : M unit := fun s => (Return tt, s, [x]).

Definition gets {A} (f : S -> A) : M A := fun s => (Return (f s), s, []).

Definition modify (f : S -> S) : M unit := fun s => (Return tt, f s, []).

(** [try { body } catch (error) { handler error }] *)
Definition tryCatch {A} (body : M A) (handler : string -> M A) : M A :=
  fun s =>
    match body s with
    | (Return a, s1, out1) => (Return a, s1, out1)
    | (Throw e, s1, out1) =>
        let '(r, s2, out2) := handler e s1 in (r, s2, (out1 ++ out2)%list)
    end.

(** [try { body } finally { cleanup }], for a cleanup that does not throw:
    the outcome of the body is kept. *)
Definition finally {A} (body : M A) (cleanup : M unit) : M A :=
  fun s =>
    let '(r, s1, out1) := body s in
    let '(_, s2, out2) := cleanup s1 in (r, s2, (out1 ++ out2)%list).

Definition stateAfter {A} (r : Outcome A * S * list Effect) : S := snd (fst r).
Definition effectsOf {A} (r : Outcome A * S * list Effect) : list Effect := snd r.
Definition outcomeOf {A} (r : Outcome A * S * list Effect) : Outcome A := fst (fst r).

End Monad.

Arguments M S A : clear implicits.

Declare Scope handler_scope.
Delimit Scope handler_scope with handler.
Notation "x <- m ;; k" := (bind m (fun x => k))
  (at level 61, m at next level, right associativity) : handler_scope.
Notation "m ;; k" := (bind m (fun _ => k))
  (at level 61, right associativity) : handler_scope.

(** The answer of a record-store request, [{ data, error }]. *)
Record Reply (A : Type) : Type := mkReply {
  data : option A;
  error : option string
}.
Arguments mkReply {A} data error.
Arguments data {A} r.
Arguments error {A} r.

(** [data || []] *)
Definition orEmpty {A} (d : option (list A)) : list A :=
  match d with
  | Some l => l
  | None => []
  end.

End Handler.

Import Handler.

(** ** The admin dashboard *)

Module Dashboard.

Local Open Scope handler_scope.

Module Registration.
Record t : Type := mk {
  id : string;
  name : string;
  email : string;
  phone : string;
  adult_count : Z;
  kids_count : Z;
  family_category : string;
  total_amount : Z;
  payment_status : string;
  transaction_id : option string;
  created_at : string;
  is_tulip_parent : bool;
  t_shirt_sizes : option (list string);   (* null when the row has no sizes *)
  updated_at : option string
}.
End Registration.

Module Donation.
Record t : Type := mk {
  id : string;
  first_name : string;
  last_name : string;
  email : string;
  amount : Z;
  designation : string;
  is_anonymous : bool;
  payment_id : string;
  donation_type : string;
  status : string;
  created_at : string;
  updated_at : option string;
  certificate_sent : option bool
}.
End Donation.

Record Stats : Type := mkStats {
  totalRegistrations : Z;
  totalParticipants : Z;
  totalPaid : Z;
  totalPending : Z;
  totalRevenue : Z;
  totalDonations : Z;
  totalDonationAmount : Z
}.

(** The component's [useState] cells. *)
Record State : Type := mkState {
  donations : list Donation.t;
  registrations : list Registration.t;
  isLoading : bool;
  searchTerm : string;
  activeTab : string;
  donationFilter : string;
  registrationFilter : string;
  statsData : Stats
}.

Definition initialStats : Stats := mkStats 0 0 0 0 0 0 0.

Definition initialState : State :=
  mkState [] [] true EmptyString "registrations" "all" "all" initialStats.

Definition setDonations (v : list Donation.t) : M State unit :=
  modify (fun s => mkState v (registrations s) (isLoading s) (searchTerm s)
                     (activeTab s) (donationFilter s) (registrationFilter s) (statsData s)).

Definition setRegistrations (v : list Registration.t) : M State unit :=
  modify (fun s => mkState (donations s) v (isLoading s) (searchTerm s)
                     (activeTab s) (donationFilter s) (registrationFilter s) (statsData s)).

Definition setIsLoading (v : bool) : M State unit :=
  modify (fun s => mkState (donations s) (registrations s) v (searchTerm s)
                     (activeTab s) (donationFilter s) (registrationFilter s) (statsData s)).

Definition setSearchTerm (v : string) : M State unit :=
  modify (fun s => mkState (donations s) (registrations s) (isLoading s) v
                     (activeTab s) (donationFilter s) (registrationFilter s) (statsData s)).

Definition setDonationFilter (v : string) : M State unit :=
  modify (fun s => mkState (donations s) (registrations s) (isLoading s) (searchTerm s)
                     (activeTab s) v (registrationFilter s) (statsData s)).

Definition setRegistrationFilter (v : string) : M State unit :=
  modify (fun s => mkState (donations s) (registrations s) (isLoading s) (searchTerm s)
                     (activeTab s) (donationFilter s) v (statsData s)).

Definition setStatsData (v : Stats) : M State unit :=
  modify (fun s => mkState (donations s) (registrations s) (isLoading s) (searchTerm s)
                     (activeTab s) (donationFilter s) (registrationFilter s) v).

(** [xs.length] *)
Definition len {A} (xs : list A) : Z := Z.of_nat (List.length xs).

(** Here the numbers are whole numbers, which is what the counts are;
    [Binary64.calculateStats] is the same function on binary64 values. *)
Definition calculateStats (regs : list Registration.t) (dons : list Donation.t)
  : M State unit :=
  let totalRegistrations := len regs in
  let totalParticipants :=
    fold_left
      (fun sum reg =>
         (sum + orZero (Registration.adult_count reg)
              + orZero (Registration.kids_count reg))%Z)
      regs 0%Z in
  let totalPaid :=
    len (filter (fun reg => Registration.payment_status reg =? "paid") regs) in
  let totalPending :=
    len (filter (fun reg => Registration.payment_status reg =? "pending") regs) in
  let totalRevenue :=
    fold_left
      (fun sum reg => (sum + orZero (Registration.total_amount reg))%Z)
      (filter (fun reg => Registration.payment_status reg =? "paid") regs) 0%Z in
  let totalDonations := len dons in
  let totalDonationAmount :=
    fold_left
      (fun sum don => (sum + orZero (Donation.amount don))%Z)
      (filter (fun don => Donation.status don =? "completed") dons) 0%Z in
  setStatsData
    (mkStats totalRegistrations totalParticipants totalPaid totalPending
       totalRevenue totalDonations totalDonationAmount).

(** The three record-store answers [fetchData] awaits, in order: the
    registrations read, the donations table check and the donations read. *)
Record FetchReplies : Type := mkFetchReplies {
  registrationsReply : Reply (list Registration.t);
  donationCheckReply : Reply unit;
  donationsReply : Reply (list Donation.t)
}.

Definition fetchData (fr : FetchReplies) : M State unit :=
  setIsLoading true ;;
  finally
    (tryCatch
       (let registrationsData := data (registrationsReply fr) in
        match error (registrationsReply fr) with
        | Some registrationsError =>
            emit (ConsoleError "Error fetching registrations:" registrationsError) ;;
            throw registrationsError
        | None => ret tt
        end ;;
        setRegistrations (orEmpty registrationsData) ;;
        match error (donationCheckReply fr) with
        | Some donationCheckError =>
            emit (ConsoleError "Error checking donations table:" donationCheckError) ;;
            emit (ConsoleError
                    "This suggests the table might not exist or you lack permissions"
                    EmptyString)
        | None => ret tt
        end ;;
        let donationsData := data (donationsReply fr) in
        match error (donationsReply fr) with
        | Some donationsError =>
            emit (ConsoleError "Error fetching donations:" donationsError) ;;
            throw donationsError
        | None => ret tt
        end ;;
        setDonations (orEmpty donationsData) ;;
        calculateStats (orEmpty registrationsData) (orEmpty donationsData))
       (fun error =>
          emit (ConsoleError "Error fetching data:" error) ;;
          emit (ToastError "Failed to load data"
                  (Some "Please try again or contact support"))))
    (setIsLoading false).

Definition handleSearch (value : string) : M State unit := setSearchTerm value.

(** The [status] argument of [handleUpdatePaymentStatus]. *)
Inductive PaymentStatus : Type := StatusPaid | StatusPending.

Definition paymentStatusName (s : PaymentStatus) : string :=
  match s with
  | StatusPaid => "paid"
  | StatusPending => "pending"
  end.

(** The [status] argument of [handleUpdateDonationStatus]. *)
Inductive DonationStatus : Type := DonationCompleted | DonationPending.

Definition donationStatusName (s : DonationStatus) : string :=
  match s with
  | DonationCompleted => "completed"
  | DonationPending => "pending"
  end.

(** [updateData] of [handleUpdatePaymentStatus]. *)
Record PaymentPatch : Type := mkPaymentPatch {
  patch_payment_status : string;
  patch_transaction_id : option string;
  patch_updated_at : string
}.

(** [updateData] of [handleUpdateDonationStatus]. *)
Record DonationPatch : Type := mkDonationPatch {
  patch_status : string;
  patch_don_updated_at : string
}.

(** [{ ...reg, ...updateData }] *)
Definition spreadPayment (reg : Registration.t) (u : PaymentPatch) : Registration.t :=
  Registration.mk
    (Registration.id reg) (Registration.name reg) (Registration.email reg)
    (Registration.phone reg) (Registration.adult_count reg)
    (Registration.kids_count reg) (Registration.family_category reg)
    (Registration.total_amount reg)
    (patch_payment_status u) (patch_transaction_id u)
    (Registration.created_at reg) (Registration.is_tulip_parent reg)
    (Registration.t_shirt_sizes reg)
    (Some (patch_updated_at u)).

(** [{ ...don, ...updateData }] *)
Definition spreadDonation (don : Donation.t) (u : DonationPatch) : Donation.t :=
  Donation.mk
    (Donation.id don) (Donation.first_name don) (Donation.last_name don)
    (Donation.email don) (Donation.amount don) (Donation.designation don)
    (Donation.is_anonymous don) (Donation.payment_id don)
    (Donation.donation_type don)
    (patch_status u)
    (Donation.created_at don)
    (Some (patch_don_updated_at u))
    (Donation.certificate_sent don).

(** [{ ...don, certificate_sent: true }] *)
Definition spreadCertificate (don : Donation.t) : Donation.t :=
  Donation.mk
    (Donation.id don) (Donation.first_name don) (Donation.last_name don)
    (Donation.email don) (Donation.amount don) (Donation.designation don)
    (Donation.is_anonymous don) (Donation.payment_id don)
    (Donation.donation_type don) (Donation.status don)
    (Donation.created_at don) (Donation.updated_at don)
    (Some true).

(** The patch built at the top of [handleUpdatePaymentStatus].  [random36]
    is the text of [Math.random().toString(36)] and [now] that of
    [new Date().toISOString()]. *)
Definition paymentUpdateData (random36 now : string) (status : PaymentStatus)
  : PaymentPatch :=
  mkPaymentPatch
    (paymentStatusName status)
    (match status with
     | StatusPaid => Some ("tx_" ++ jsSubstring 2 11 random36)
     | StatusPending => None
     end)
    now.

Definition handleUpdatePaymentStatus
    (random36 now : string) (updateReply : Reply unit) (reload : FetchReplies)
    (id : string) (status : PaymentStatus) : M State unit :=
  tryCatch
    (let updateData := paymentUpdateData random36 now status in
     match error updateReply with
     | Some error => throw error
     | None => ret tt
     end ;;
     registrations <- gets registrations ;;
     setRegistrations
       (map (fun reg =>
               if Registration.id reg =? id then spreadPayment reg updateData
               else reg)
            registrations) ;;
     emit (ToastSuccess ("Payment status updated to " ++ paymentStatusName status) None) ;;
     fetchData reload)
    (fun error =>
       emit (ConsoleError "Error updating payment status:" error) ;;
       emit (ToastError "Failed to update payment status" None)).

Definition donationUpdateData (now : string) (status : DonationStatus)
  : DonationPatch :=
  mkDonationPatch (donationStatusName status) now.

Definition handleUpdateDonationStatus
    (now : string) (updateReply : Reply unit) (reload : FetchReplies)
    (id : string) (status : DonationStatus) : M State unit :=
  tryCatch
    (let updateData := donationUpdateData now status in
     match error updateReply with
     | Some error => throw error
     | None => ret tt
     end ;;
     donations <- gets donations ;;
     setDonations
       (map (fun don =>
               if Donation.id don =? id then spreadDonation don updateData
               else don)
            donations) ;;
     emit (ToastSuccess ("Donation status updated to " ++ donationStatusName status) None) ;;
     fetchData reload)
    (fun error =>
       emit (ConsoleError "Error updating donation status:" error) ;;
       emit (ToastError "Failed to update donation status" None)).

Definition handleSendCertificate (updateReply : Reply unit) (id : string)
  : M State unit :=
  tryCatch
    (match error updateReply with
     | Some error =>
         emit (ConsoleError "Supabase error:" error) ;;
         throw error
     | None => ret tt
     end ;;
     donations <- gets donations ;;
     setDonations
       (map (fun don =>
               if Donation.id don =? id then spreadCertificate don else don)
            donations) ;;
     emit (ToastSuccess "Certificate sent successfully" None))
    (fun error =>
       emit (ConsoleError "Error sending certificate:" error) ;;
       emit (ToastError "Failed to send certificate" None)).

(** The [type] argument of [handleExportData]. *)
Inductive ExportKind : Type := ExportRegistrations | ExportDonations.

Definition exportKindName (k : ExportKind) : string :=
  match k with
  | ExportRegistrations => "registrations"
  | ExportDonations => "donations"
  end.

Definition registrationHeaders : list string :=
  ["Name"; "Email"; "Phone"; "Adults"; "Kids"; "Family Type"; "Amount";
   "Status"; "Transaction ID"; "Date"; "T-Shirt Sizes"].

Definition donationHeaders : list string :=
  ["Name"; "Email"; "Amount"; "Designation"; "Anonymous"; "Payment ID";
   "Type"; "Status"; "Date"].

Section CsvExport.

(** [localeDate s] is the text of [new Date(s).toLocaleDateString()]. *)
Variable localeDate : string -> string.

(** One element of [csvData] for a registration. *)
Definition registrationRow (reg : Registration.t) : list string :=
  [ escapeCSV (JString (orStr (Registration.name reg) EmptyString));
    escapeCSV (JString (orStr (Registration.email reg) EmptyString));
    escapeCSV (JString (orStr (Registration.phone reg) EmptyString));
    escapeCSV (JNumber (orZero (Registration.adult_count reg)));
    escapeCSV (JNumber (orZero (Registration.kids_count reg)));
    escapeCSV (JString (orStr (Registration.family_category reg) EmptyString));
    escapeCSV (JNumber (orZero (Registration.total_amount reg)));
    escapeCSV (JString (orStr (Registration.payment_status reg) EmptyString));
    escapeCSV (JString (orStrOpt (Registration.transaction_id reg) "N/A"));
    escapeCSV (JString (if truthyStr (Registration.created_at reg)
                        then localeDate (Registration.created_at reg)
                        else EmptyString));
    escapeCSV (JString (match Registration.t_shirt_sizes reg with
                        | Some sizes => join ", " sizes
                        | None => "N/A"
                        end)) ].

(** One element of [csvData] for a donation. *)
Definition donationRow (don : Donation.t) : list string :=
  [ escapeCSV (JString (trim (trim (orStr (Donation.first_name don) EmptyString)
                               ++ " "
                               ++ trim (orStr (Donation.last_name don) EmptyString))));
    escapeCSV (JString (orStr (Donation.email don) EmptyString));
    escapeCSV (JNumber (orZero (Donation.amount don)));
    escapeCSV (JString (orStr (Donation.designation don) EmptyString));
    escapeCSV (JString (if Donation.is_anonymous don then "Yes" else "No"));
    escapeCSV (JString (orStr (Donation.payment_id don) EmptyString));
    escapeCSV (JString (orStr (Donation.donation_type don) EmptyString));
    escapeCSV (JString (orStr (Donation.status don) EmptyString));
    escapeCSV (JString (if truthyStr (Donation.created_at don)
                        then localeDate (Donation.created_at don)
                        else EmptyString)) ].

(** [csvContent]: the header line, then one joined line per row. *)
Definition csvContent (headers : list string) (csvData : list (list string))
  : string :=
  join (chr newline) (join "," headers :: map (join ",") csvData).

(** [now] is the text of [new Date().toISOString()].  The union-typed
    [data] of the source is read in the branch that casts it. *)
Definition handleExportData (now : string) (type : ExportKind) : M State unit :=
  registrations <- gets registrations ;;
  donations <- gets donations ;;
  let '(headers, csvData) :=
    match type with
    | ExportRegistrations =>
        (registrationHeaders, map registrationRow registrations)
    | ExportDonations =>
        (donationHeaders, map donationRow donations)
    end in
  emit (Download
          (exportKindName type ++ "-" ++ beforeFirst "T"%char now ++ ".csv")
          (csvContent headers csvData)).

End CsvExport.

Definition handleDonationFilterChange (value : string) : M State unit :=
  setDonationFilter value.

Definition handleRegistrationFilterChange (value : string) : M State unit :=
  setRegistrationFilter value.

(** The callback of [registrations.filter] in [filteredRegistrations]. *)
Definition registrationVisible (searchTerm registrationFilter : string)
    (reg : Registration.t) : bool :=
  let matchesSearch :=
    includes (toLowerCase (orStr (Registration.name reg) EmptyString))
             (toLowerCase searchTerm)
    || includes (toLowerCase (orStr (Registration.email reg) EmptyString))
                (toLowerCase searchTerm)
    || includes (toLowerCase (orStr (Registration.family_category reg) EmptyString))
                (toLowerCase searchTerm) in
  if registrationFilter =? "all" then matchesSearch
  else matchesSearch && (Registration.payment_status reg =? registrationFilter).

Definition filteredRegistrations (s : State) : list Registration.t :=
  filter (registrationVisible (searchTerm s) (registrationFilter s))
         (registrations s).

(** The callback of [donations.filter] in [filteredDonations]. *)
Definition donationVisible (searchTerm donationFilter : string)
    (don : Donation.t) : bool :=
  let matchesSearch :=
    includes (toLowerCase (orStr (Donation.first_name don) EmptyString
                           ++ " "
                           ++ orStr (Donation.last_name don) EmptyString))
             (toLowerCase searchTerm)
    || includes (toLowerCase (orStr (Donation.email don) EmptyString))
                (toLowerCase searchTerm)
    || includes (toLowerCase (orStr (Donation.designation don) EmptyString))
                (toLowerCase searchTerm) in
  if donationFilter =? "all" then matchesSearch
  else matchesSearch && (Donation.status don =? donationFilter).

Definition filteredDonations (s : State) : list Donation.t :=
  filter (donationVisible (searchTerm s) (donationFilter s)) (donations s).

End Dashboard.

(** ** The totals on JavaScript numbers *)

Module Binary64.

(** A JavaScript number is an IEEE 754 binary64 value, and [+] on two
    numbers is the binary64 addition, rounded to nearest with ties to
    even. *)
Definition number : Type := float.

(** [x || 0]: of the numbers, [NaN], [0] and [-0] are falsy. *)
Definition orZero (x : number) : number :=
  if PrimFloat.is_nan x || PrimFloat.is_zero x then PrimFloat.zero else x.

(** The columns of a registration and of a donation that
    [calculateStats] reads. *)
Record RegistrationColumns : Type := mkRegistrationColumns {
  adult_count : number;
  kids_count : number;
  total_amount : number;
  payment_status : string
}.

Record DonationColumns : Type := mkDonationColumns {
  amount : number;
  status : string
}.

(** The object [calculateStats] hands to [setStatsData]. *)
Record Totals : Type := mkTotals {
  totalRegistrations : Z;
  totalParticipants : number;
  totalPaid : Z;
  totalPending : Z;
  totalRevenue : number;
  totalDonations : Z;
  totalDonationAmount : number
}.

Definition calculateStats (regs : list RegistrationColumns)
    (dons : list DonationColumns) : Totals :=
  let totalRegistrations := Dashboard.len regs in
  let totalParticipants :=
    fold_left
      (fun sum reg =>
         (sum + orZero (adult_count reg) + orZero (kids_count reg))%float)
      regs PrimFloat.zero in
  let totalPaid :=
    Dashboard.len (filter (fun reg => payment_status reg =? "paid") regs) in
  let totalPending :=
    Dashboard.len (filter (fun reg => payment_status reg =? "pending") regs) in
  let totalRevenue :=
    fold_left
      (fun sum reg => (sum + orZero (total_amount reg))%float)
      (filter (fun reg => payment_status reg =? "paid") regs) PrimFloat.zero in
  let totalDonations := Dashboard.len dons in
  let totalDonationAmount :=
    fold_left
      (fun sum don => (sum + orZero (amount don))%float)
      (filter (fun don => status don =? "completed") dons) PrimFloat.zero in
  mkTotals totalRegistrations totalParticipants totalPaid totalPending
    totalRevenue totalDonations totalDonationAmount.







End Binary64.

(** ** The donation form *)

Module DonationForm.

Local Open Scope handler_scope.

(** The validated form values, [z.infer<typeof formSchema>]. *)
Record FormData : Type := mkFormData {
  firstName : string;
  lastName : string;
  email : string;
  amount : Z;
  designation : option string;
  isAnonymous : option bool
}.

Record State : Type := mkState {
  selectedAmount : option Z;
  customAmount : string;
  isProcessingPayment : bool
}.

Definition setIsProcessingPayment (v : bool) : M State unit :=
  modify (fun s => mkState (selectedAmount s) (customAmount s) v).

(** What [stripe.confirmCardPayment] resolves to: [{ error }] or
    [{ paymentIntent }]. *)
Inductive ConfirmResult : Type :=
| ConfirmError (error : string)
| ConfirmPaid (paymentIntentId : string).

(** What the environment answers during one submission. *)
Record Env : Type := mkEnv {
  stripe : bool;                       (* [useStripe()] is not null *)
  elements : bool;                     (* [useElements()] is not null *)
  paymentIntent : Outcome string;      (* [createPaymentIntent]: the client secret, or a throw *)
  cardElement : bool;                  (* [elements.getElement(CardElement)] is not null *)
  confirmation : ConfirmResult;
  insertReply : Reply unit;
  now : string                         (* [new Date().toISOString()] *)
}.

(** [x || false] for an optional boolean. *)
Definition orFalse (x : option bool) : bool :=
  match x with
  | Some b => b
  | None => false
  end.

(** [await createPaymentIntent(...)]: the request, then its answer. *)
Definition createPaymentIntent (env : Env) (amountMinor : Z) (description : string)
  : M State string :=
  emit (CreatePaymentIntent amountMinor description) ;;
  match paymentIntent env with
  | Return clientSecret => ret clientSecret
  | Throw e => throw e
  end.

Definition onSubmit (env : Env) (data : FormData) : M State unit :=
  if negb (stripe env) || negb (elements env) then
    emit (ToastError "Stripe has not been initialized" None)
  else
    setIsProcessingPayment true ;;
    finally
      (tryCatch
         (clientSecret <-
            createPaymentIntent env (amount data * 100)%Z
              ("Donation to Tulip Kids Foundation - "
               ++ orStrOpt (designation data) "General") ;;
          (if negb (cardElement env) then throw "Card element not found" else ret tt) ;;
          emit (ConfirmCardPayment clientSecret
                  (firstName data ++ " " ++ lastName data) (email data)) ;;
          match confirmation env with
          | ConfirmError error => throw error
          | ConfirmPaid paymentIntentId =>
              emit (StoreInsert "donations"
                      (mkDonationInsert
                         (firstName data) (lastName data) (email data)
                         (amount data) (designation data)
                         (orFalse (isAnonymous data))
                         paymentIntentId
                         "Website Donation"
                         "completed"
                         (now env))) ;;
              match error (insertReply env) with
              | Some dbError => emit (ConsoleError "Database error:" dbError)
              | None => ret tt
              end ;;
              emit (ToastSuccess "Donation successful!"
                      (Some "Thank you for your generous support.")) ;;
              emit (Navigate "/donation-success"
                      (mkDonationData
                         (firstName data ++ " " ++ lastName data)
                         (email data) (amount data) (designation data)
                         (orFalse (isAnonymous data)))
                      paymentIntentId)
          end)
         (fun error =>
            emit (ConsoleError "Payment error:" error) ;;
            emit (ToastError "Payment failed"
                    (Some "Please try again or contact support"))))
      (setIsProcessingPayment false).

End DonationForm.

(** ** The dashboard against a record store *)

Module System.

Import Dashboard.

(** Modelled from the spec: the Record Store, an external managed service
    (sections 2 and 6 of the specification): two tables, an ordered read
    of a whole table, and an update that patches the rows whose [id]
    equals the given one.  Each request passes or fails an authorisation
    check that the component cannot see; a failed request changes
    nothing and answers with an error. *)
Record Store : Type := mkStore {
  registrationsTable : list Registration.t;
  donationsTable : list Donation.t
}.

Section Order.
Context {A : Type} (key : A -> string).

(** [insertDesc] and [orderDesc]: [.order(key, { ascending: false })]. *)
Fixpoint insertDesc (x : A) (xs : list A) : list A :=
  match xs with
  | [] => [x]
  | y :: ys =>
      if String.leb (key y) (key x) then x :: xs else y :: insertDesc x ys
  end.

Fixpoint orderDesc (xs : list A) : list A :=
  match xs with
  | [] => []
  | x :: rest => insertDesc x (orderDesc rest)
  end.

End Order.

Definition denied : string := "permission denied".

Definition selectRegistrations (allowed : bool) (st : Store)
  : Reply (list Registration.t) :=
  if allowed
  then mkReply (Some (orderDesc Registration.created_at (registrationsTable st))) None
  else mkReply None (Some denied).

Definition selectDonations (allowed : bool) (st : Store)
  : Reply (list Donation.t) :=
  if allowed
  then mkReply (Some (orderDesc Donation.created_at (donationsTable st))) None
  else mkReply None (Some denied).

Definition checkDonations (allowed : bool) : Reply unit :=
  if allowed then mkReply (Some tt) None else mkReply None (Some denied).

(** [.from('registrations').update(patch).eq('id', id)] *)
Definition updateRegistration (allowed : bool) (id : string) (patch : PaymentPatch)
    (st : Store) : Store * Reply unit :=
  if allowed
  then (mkStore
          (map (fun row =>
                  if Registration.id row =? id then spreadPayment row patch
                  else row)
               (registrationsTable st))
          (donationsTable st),
        mkReply None None)
  else (st, mkReply None (Some denied)).

(** The authorisation outcomes of the three reads of one reload. *)
Record ReadAccess : Type := mkReadAccess {
  mayReadRegistrations : bool;
  mayCheckDonations : bool;
  mayReadDonations : bool
}.

Definition reloadReplies (acc : ReadAccess) (st : Store) : FetchReplies :=
  mkFetchReplies
    (selectRegistrations (mayReadRegistrations acc) st)
    (checkDonations (mayCheckDonations acc))
    (selectDonations (mayReadDonations acc) st).

(** One admin session in front of the store. *)
Record t : Type := mk {
  store : Store;
  ui : State
}.

(** One click on a mark-as-paid or mark-as-pending control, with what the
    runtime and the store's access check answer during it. *)
Record PaymentCall : Type := mkPaymentCall {
  call_id : string;
  call_status : PaymentStatus;
  call_random36 : string;
  call_now : string;
  call_mayUpdate : bool;
  call_reload : ReadAccess
}.

Definition updatePaymentStatus (c : PaymentCall) (sys : t) : t :=
  let patch := paymentUpdateData (call_random36 c) (call_now c) (call_status c) in
  let '(store', reply) :=
    updateRegistration (call_mayUpdate c) (call_id c) patch (store sys) in
  mk store'
     (stateAfter
        (handleUpdatePaymentStatus (call_random36 c) (call_now c) reply
           (reloadReplies (call_reload c) store')
           (call_id c) (call_status c) (ui sys))).

Definition updatePaymentStatusMany (cs : list PaymentCall) (sys : t) : t :=
  fold_left (fun s c => updatePaymentStatus c s) cs sys.

End System.

(** ** Vocabulary of the properties *)

Module Props.

Import Dashboard.

(** The characters of a string, and whether [c] is one of them. *)
Definition hasChar (c : ascii) (s : string) : bool :=
  existsb (Ascii.eqb c) (list_ascii_of_string s).

(** A field needs quoting when it holds a comma or a double quote. *)
Definition needsQuoting (s : string) : bool :=
  hasChar comma s || hasChar dquote s.

(** Whether a text holds a carriage return or a line feed, and whether
    an escaped field can be read back: it can when it was quoted, or when
    it holds no line break. *)
Definition hasLineBreak (s : string) : bool :=
  hasChar carriageReturn s || hasChar newline s.

Definition readable (s : string) : bool :=
  needsQuoting s || negb (hasLineBreak s).

(** A field of two lines with no comma and no double quote. *)
Definition twoLines : string := "a" ++ chr newline ++ "b".

(** The number of line breaks of a text. *)
Definition lineBreaks (s : string) : nat :=
  List.length (filter (Ascii.eqb newline) (list_ascii_of_string s)).

(** The field of the specification's example (John, a comma, a space,
    then Doe between double quotes) and its serialised form. *)
Definition johnDoe : string :=
  "John, " ++ chr dquote ++ "Doe" ++ chr dquote.

Definition johnDoeEscaped : string :=
  chr dquote ++ "John, " ++ chr dquote ++ chr dquote ++ "Doe"
  ++ chr dquote ++ chr dquote ++ chr dquote.

(** A registration whose name spans two lines, alone in the list. *)
Definition twoLineRegistration : Registration.t :=
  Registration.mk "r1" ("Ann" ++ chr newline ++ "Lee") "ann@example.org"
    "555-0100" 2 1 "family" 150 "pending" None EmptyString false (Some ["M"; "S"]) None.

Definition twoLineState : State :=
  mkState [] [twoLineRegistration] false EmptyString "registrations" "all" "all"
    initialStats.

Definition twoLineCsv : string :=
  "Name,Email,Phone,Adults,Kids,Family Type,Amount,Status,Transaction ID,Date,T-Shirt Sizes"
  ++ chr newline
  ++ "Ann" ++ chr newline ++ "Lee,ann@example.org,555-0100,2,1,family,150,pending,N/A,,"
  ++ chr dquote ++ "M, S" ++ chr dquote.

(** The lists a state holds, and the lists its two views show. *)
Definition wholeList (st : State) : list Registration.t * list Donation.t :=
  (registrations st, donations st).

Definition filteredList (st : State) : list Registration.t * list Donation.t :=
  (filteredRegistrations st, filteredDonations st).

(** The CSV text of a pair of lists for one kind of export, its number of
    data rows, and the name of the downloaded file. *)
Definition exportOf (localeDate : string -> string) (kind : ExportKind)
    (lists : list Registration.t * list Donation.t) : string :=
  match kind with
  | ExportRegistrations =>
      csvContent registrationHeaders (map (registrationRow localeDate) (fst lists))
  | ExportDonations =>
      csvContent donationHeaders (map (donationRow localeDate) (snd lists))
  end.

Definition exportedRows (localeDate : string -> string) (kind : ExportKind)
    (lists : list Registration.t * list Donation.t) : nat :=
  match kind with
  | ExportRegistrations => List.length (map (registrationRow localeDate) (fst lists))
  | ExportDonations => List.length (map (donationRow localeDate) (snd lists))
  end.

Definition exportFileName (now : string) (kind : ExportKind) : string :=
  exportKindName kind ++ "-" ++ beforeFirst "T"%char now ++ ".csv".

(** The claim that the export carries the filtered list. *)
Definition exportsFilteredList (localeDate : string -> string) (now : string)
    (kind : ExportKind) (st : State) : Prop :=
  effectsOf (handleExportData localeDate now kind st) =
  [Download (exportFileName now kind) (exportOf localeDate kind (filteredList st))].

(** Two registrations, shown without and with a search term. *)
Definition annRegistration : Registration.t :=
  Registration.mk "r1" "Ann Lee" "ann@example.org" "555-0100" 2 1 "family" 150
    "pending" None "2025-03-01T09:00:00.000Z" false (Some ["M"]) None.

Definition bobRegistration : Registration.t :=
  Registration.mk "r2" "Bob Ray" "bob@example.org" "555-0101" 1 0 "single" 50
    "paid" (Some "tx_k3j9x0q2a") "2025-02-01T09:00:00.000Z" true (Some []) None.

Definition twoRegistrationsState : State :=
  mkState [] [annRegistration; bobRegistration] false EmptyString
    "registrations" "all" "all" initialStats.

Definition searchState : State :=
  mkState [] [annRegistration; bobRegistration] false "ann"
    "registrations" "all" "all" initialStats.

(** The sum of a list of integers. *)
Definition sumZ (l : list Z) : Z := fold_right Z.add 0%Z l.

(** The registrations that are paid, the donations that are completed. *)
Definition isPaid (reg : Registration.t) : bool :=
  Registration.payment_status reg =? "paid".

Definition isCompleted (don : Donation.t) : bool :=
  Donation.status don =? "completed".

Definition paidOnly (R : list Registration.t) : list Registration.t :=
  filter isPaid R.

Definition completedOnly (D : list Donation.t) : list Donation.t :=
  filter isCompleted D.

(** A base-36 digit as [toString(36)] writes it: 0-9 or a-z. *)
Definition isBase36Digit (c : ascii) : bool :=
  let n := nat_of_ascii c in
  ((48 <=? n)%nat && (n <=? 57)%nat) || ((97 <=? n)%nat && (n <=? 122)%nat).

Definition allBase36 (s : string) : bool :=
  forallb isBase36Digit (list_ascii_of_string s).

(** [stripPrefix p s] is what follows [p] in [s], when [s] starts with [p]. *)
Fixpoint stripPrefix (p s : string) : option string :=
  match p, s with
  | EmptyString, _ => Some s
  | String a p', String b s' => if Ascii.eqb a b then stripPrefix p' s' else None
  | String _ _, EmptyString => None
  end.

(** The pattern [tx_] followed by exactly nine characters of a-z, 0-9. *)
Definition matchesTxPattern (s : string) : bool :=
  match stripPrefix "tx_" s with
  | Some body => (String.length body =? 9)%nat && allBase36 body
  | None => false
  end.

(** The pattern [tx_] followed by at most nine characters of a-z, 0-9. *)
Definition matchesTxUpToNine (s : string) : bool :=
  match stripPrefix "tx_" s with
  | Some body => (String.length body <=? 9)%nat && allBase36 body
  | None => false
  end.

(** The texts [toString(36)] gives for a number that is at least zero and
    below one: a zero alone, or a zero, a point and one or more base-36
    digits. *)
Definition isRandom36Text (s : string) : bool :=
  match stripPrefix "0" s with
  | Some EmptyString => true
  | Some rest =>
      match stripPrefix "." rest with
      | Some digits => negb (digits =? EmptyString) && allBase36 digits
      | None => false
      end
  | None => false
  end.

(** A list of registrations with the patch spread over the records whose
    [id] is the given one. *)
Definition locallyPatched (id : string) (patch : PaymentPatch)
    (regs : list Registration.t) : list Registration.t :=
  map (fun reg => if Registration.id reg =? id then spreadPayment reg patch else reg)
      regs.

(** A reload in which every read is refused. *)
Definition failedReload : FetchReplies :=
  mkFetchReplies (mkReply None (Some "permission denied"))
                 (mkReply None (Some "permission denied"))
                 (mkReply None (Some "permission denied")).

(** What the user is shown: toasts, downloads and navigation. *)
Definition userFacing (e : Effect) : bool :=
  match e with
  | ToastError _ _ | ToastSuccess _ _ | Download _ _ | Navigate _ _ _ => true
  | _ => false
  end.

Definition isConsoleError (e : Effect) : bool :=
  match e with
  | ConsoleError _ _ => true
  | _ => false
  end.

Definition isToastError (e : Effect) : bool :=
  match e with
  | ToastError _ _ => true
  | _ => false
  end.

(** The free-text predicate and the status predicate of each view. *)
Definition registrationMatchesSearch (term : string) (reg : Registration.t) : bool :=
  includes (toLowerCase (orStr (Registration.name reg) EmptyString)) (toLowerCase term)
  || includes (toLowerCase (orStr (Registration.email reg) EmptyString)) (toLowerCase term)
  || includes (toLowerCase (orStr (Registration.family_category reg) EmptyString))
              (toLowerCase term).

Definition registrationHasStatus (flt : string) (reg : Registration.t) : bool :=
  (flt =? "all") || (Registration.payment_status reg =? flt).

Definition donationMatchesSearch (term : string) (don : Donation.t) : bool :=
  includes (toLowerCase (orStr (Donation.first_name don) EmptyString ++ " "
                         ++ orStr (Donation.last_name don) EmptyString))
           (toLowerCase term)
  || includes (toLowerCase (orStr (Donation.email don) EmptyString)) (toLowerCase term)
  || includes (toLowerCase (orStr (Donation.designation don) EmptyString))
              (toLowerCase term).

Definition donationHasStatus (flt : string) (don : Donation.t) : bool :=
  (flt =? "all") || (Donation.status don =? flt).

(** The invariant of a registration: a transaction id only when paid. *)
Definition txOnlyWhenPaid (reg : Registration.t) : bool :=
  match Registration.transaction_id reg with
  | Some _ => Registration.payment_status reg =? "paid"
  | None => true
  end.

Definition allTxOnlyWhenPaid (regs : list Registration.t) : bool :=
  forallb txOnlyWhenPaid regs.

(** The invariant over a session: every row of the store's registrations
    table and every registration of the local list. *)
Definition systemInvariant (sys : System.t) : bool :=
  allTxOnlyWhenPaid (System.registrationsTable (System.store sys))
  && allTxOnlyWhenPaid (registrations (System.ui sys)).

(** A session over two registrations, and three calls: r1 marked paid,
    r2 marked pending while the store refuses the update, r1 marked
    pending while the reload fails. *)
Definition exampleSystem : System.t :=
  System.mk (System.mkStore [annRegistration; bobRegistration] [])
            twoRegistrationsState.

Definition exampleCalls : list System.PaymentCall :=
  [ System.mkPaymentCall "r1" StatusPaid "0.k3j9x0q2a1w" "2025-03-09T10:20:30.000Z"
      true (System.mkReadAccess true true true);
    System.mkPaymentCall "r2" StatusPending "0.i" "2025-03-09T10:21:30.000Z"
      false (System.mkReadAccess true true true);
    System.mkPaymentCall "r1" StatusPending "0.8c" "2025-03-09T10:22:30.000Z"
      true (System.mkReadAccess false true false) ].

End Props.

Import Props.

(** ** What the tables render *)

Module View.

Import Dashboard.

(** [x] is truthy, for [x : boolean | undefined]. *)
Definition truthyFlag (x : option bool) : bool :=
  match x with
  | Some b => b
  | None => false
  end.

(** The status badge of a registration row. *)
Definition registrationBadge (reg : Registration.t) : string :=
  if Registration.payment_status reg =? "paid" then "Paid" else "Pending".

(** The status the action button of a registration row asks for: the
    button reads Mark as Paid on a pending row, Mark as Pending on any
    other. *)
Definition registrationAction (reg : Registration.t) : PaymentStatus :=
  if Registration.payment_status reg =? "pending" then StatusPaid else StatusPending.

(** The participants cell of a registration row. *)
Definition participantsCell (reg : Registration.t) : Z :=
  (orZero (Registration.adult_count reg) + orZero (Registration.kids_count reg))%Z.

(** The status badge of a donation row. *)
Definition donationBadge (don : Donation.t) : string :=
  if Donation.status don =? "completed" then "Completed" else "Pending".

(** The status the first action button of a donation row asks for. *)
Definition donationAction (don : Donation.t) : DonationStatus :=
  if Donation.status don =? "pending" then DonationCompleted else DonationPending.

(** The certificate badge, and the certificate button: its [disabled]
    attribute and its label. *)
Definition certificateBadge (don : Donation.t) : string :=
  if truthyFlag (Donation.certificate_sent don) then "Sent" else "Not Sent".

Definition certificateDisabled (don : Donation.t) : bool :=
  truthyFlag (Donation.certificate_sent don).

Definition certificateLabel (don : Donation.t) : string :=
  if truthyFlag (Donation.certificate_sent don)
  then "Certificate Sent" else "Send Certificate".

(** The body of each table: a single placeholder line when the filtered
    list is empty, one line per filtered record otherwise. *)
Inductive TableBody (A : Type) : Type :=
| NothingFound (message : string)
| Rows (rows : list A).
Arguments NothingFound {A} message.
Arguments Rows {A} rows.

Definition registrationsBody (s : State) : TableBody Registration.t :=
  if (len (filteredRegistrations s) =? 0)%Z
  then NothingFound "No registrations found"
  else Rows (filteredRegistrations s).

Definition donationsBody (s : State) : TableBody Donation.t :=
  if (len (filteredDonations s) =? 0)%Z
  then NothingFound "No donations found"
  else Rows (filteredDonations s).

End View.

(** ** Reading a CSV record back *)

Module CsvReader.

(** Where the reader is within a field of the record. *)
Inductive Mode : Type :=
| FieldStart        (* nothing of the field read yet *)
| InPlain           (* inside a field that did not open with a quote *)
| InQuoted          (* inside an escaped field *)
| AfterQuote.       (* just after a double quote inside an escaped field *)

Definition finish (acc : list ascii) : string :=
  string_of_list_ascii (rev acc).

(** RFC 4180 reading of one record (one line of fields separated by
    commas), used to state that an exported line can be read back.
    [acc] holds the characters of the current field, last one first.  A
    double quote, a carriage return or a line feed inside a field that did
    not open with a quote, a character other than a comma after a closing
    quote, and a missing closing quote are malformed: [None]. *)
Fixpoint readFrom (mode : Mode) (acc : list ascii) (s : string)
  : option (list string) :=
  match s with
  | EmptyString =>
      match mode with
      | InQuoted => None
      | _ => Some [finish acc]
      end
  | String c rest =>
      match mode with
      | FieldStart =>
          if Ascii.eqb c dquote then readFrom InQuoted acc rest
          else if Ascii.eqb c comma
               then option_map (cons (finish acc)) (readFrom FieldStart [] rest)
               else if isLineBreak c then None
                    else readFrom InPlain (c :: acc) rest
      | InPlain =>
          if Ascii.eqb c comma
          then option_map (cons (finish acc)) (readFrom FieldStart [] rest)
          else if Ascii.eqb c dquote || isLineBreak c then None
               else readFrom InPlain (c :: acc) rest
      | InQuoted =>
          if Ascii.eqb c dquote then readFrom AfterQuote acc rest
          else readFrom InQuoted (c :: acc) rest
      | AfterQuote =>
          if Ascii.eqb c dquote then readFrom InQuoted (dquote :: acc) rest
          else if Ascii.eqb c comma
               then option_map (cons (finish acc)) (readFrom FieldStart [] rest)
               else None
      end
  end.

Definition readRecord (line : string) : option (list string) :=
  readFrom FieldStart [] line.

End CsvReader.

(** ** Vocabulary of the further properties *)

Module Cover.

Import Dashboard.

(** The values an exported row is made of, before escaping. *)
Definition registrationValues (localeDate : string -> string) (reg : Registration.t)
  : list string :=
  [ Registration.name reg;
    Registration.email reg;
    Registration.phone reg;
    stringOfZ (Registration.adult_count reg);
    stringOfZ (Registration.kids_count reg);
    Registration.family_category reg;
    stringOfZ (Registration.total_amount reg);
    Registration.payment_status reg;
    match Registration.transaction_id reg with
    | Some (String c tx) => String c tx
    | _ => "N/A"
    end;
    match Registration.created_at reg with
    | EmptyString => EmptyString
    | at_ => localeDate at_
    end;
    match Registration.t_shirt_sizes reg with
    | Some sizes => join ", " sizes
    | None => "N/A"
    end ].

Definition donationValues (localeDate : string -> string) (don : Donation.t)
  : list string :=
  [ trim (trim (Donation.first_name don) ++ " " ++ trim (Donation.last_name don));
    Donation.email don;
    stringOfZ (Donation.amount don);
    Donation.designation don;
    (if Donation.is_anonymous don then "Yes" else "No");
    Donation.payment_id don;
    Donation.donation_type don;
    Donation.status don;
    match Donation.created_at don with
    | EmptyString => EmptyString
    | at_ => localeDate at_
    end ].

(** The fields of a registration that no handler writes. *)
Definition registrationFixed (reg : Registration.t) :=
  (Registration.id reg, Registration.name reg, Registration.email reg,
   Registration.phone reg, Registration.adult_count reg, Registration.kids_count reg,
   Registration.family_category reg, Registration.total_amount reg,
   Registration.created_at reg, Registration.is_tulip_parent reg,
   Registration.t_shirt_sizes reg).

(** The fields of a donation that no handler writes. *)
Definition donationFixed (don : Donation.t) :=
  (Donation.id don, Donation.first_name don, Donation.last_name don,
   Donation.email don, Donation.amount don, Donation.designation don,
   Donation.is_anonymous don, Donation.payment_id don, Donation.donation_type don,
   Donation.created_at don).

(** A state with another list of registrations, or of donations. *)
Definition withRegistrations (regs : list Registration.t) (s : State) : State :=
  mkState (donations s) regs (isLoading s) (searchTerm s) (activeTab s)
    (donationFilter s) (registrationFilter s) (statsData s).


(** A list of donations with a function applied to the records whose
    [id] is the given one. *)
Definition onDonation (id : string) (f : Donation.t -> Donation.t)
    (dons : list Donation.t) : list Donation.t :=
  map (fun don => if Donation.id don =? id then f don else don) dons.

(** The statistics [calculateStats] stores for two lists. *)
Definition statsOf (regs : list Registration.t) (dons : list Donation.t) : Stats :=
  statsData (stateAfter (calculateStats regs dons initialState)).

(** The payment was confirmed: the gateway objects are present, the
    intent was created, the card widget is there and the confirmation
    carries a payment intent. *)
Definition paymentConfirmed (env : DonationForm.Env) : bool :=
  DonationForm.stripe env && DonationForm.elements env
  && match DonationForm.paymentIntent env with
     | Return _ => true
     | Throw _ => false
     end
  && DonationForm.cardElement env
  && match DonationForm.confirmation env with
     | DonationForm.ConfirmPaid _ => true
     | DonationForm.ConfirmError _ => false
     end.

Definition isStoreInsert (e : Effect) : bool :=
  match e with
  | StoreInsert _ _ => true
  | _ => false
  end.

Definition isNavigate (e : Effect) : bool :=
  match e with
  | Navigate _ _ _ => true
  | _ => false
  end.

Definition isToast (e : Effect) : bool :=
  match e with
  | ToastError _ _ | ToastSuccess _ _ => true
  | _ => false
  end.

Definition isToastSuccess (e : Effect) : bool :=
  match e with
  | ToastSuccess _ _ => true
  | _ => false
  end.

Definition isGatewayRequest (e : Effect) : bool :=
  match e with
  | CreatePaymentIntent _ _ | ConfirmCardPayment _ _ _ => true
  | _ => false
  end.

(** Whether a load failed at one of its two reads. *)
Definition readFailed (fr : FetchReplies) : bool :=
  match error (registrationsReply fr), error (donationsReply fr) with
  | None, None => false
  | _, _ => true
  end.

(** What follows the first field on a line of escaped fields. *)
Fixpoint restOfLine (cells : list string) : string :=
  match cells with
  | [] => EmptyString
  | x :: xs => "," ++ escapeCSV (JString x) ++ restOfLine xs
  end.

Definition isDownload (e : Effect) : bool :=
  match e with
  | Download _ _ => true
  | _ => false
  end.

(** A registration whose status is pending, or neither paid nor pending. *)
Definition isPending (reg : Registration.t) : bool :=
  Registration.payment_status reg =? "pending".

Definition otherStatus (reg : Registration.t) : bool :=
  negb (Props.isPaid reg) && negb (isPending reg).

(** A registration with a status the dashboard does not know. *)
Definition refundedRegistration : Registration.t :=
  Registration.mk "r3" "Ann Moss" "moss@example.org" "555-0102" 1 2 "family" 120
    "refunded" None "2025-01-15T09:00:00.000Z" false (Some ["L"]) None.

End Cover.

Import Cover.

(** ** CSV escaping *)

Lemma prefix_chr (c : ascii) (s : string) :
  String.prefix (chr c) s =
  match s with
  | EmptyString => false
  | String d _ => Ascii.eqb c d
  end.
Proof.
  destruct s as [|d s']; simpl; [reflexivity|].
  destruct (ascii_dec c d) as [->|Hne].
  - rewrite Ascii.eqb_refl. now destruct s'.
  - symmetry. now apply Ascii.eqb_neq.
Qed.

Lemma includes_chr (c : ascii) (s : string) :
  includes s (chr c) = hasChar c s.
Proof.
  unfold hasChar.
  induction s as [|d s' IH].
  - reflexivity.
  - cbn [includes list_ascii_of_string existsb].
    rewrite prefix_chr, IH. reflexivity.
Qed.

Lemma escapeCSV_string (s : string) :
  escapeCSV (JString s) =
  if needsQuoting s then chr dquote ++ doubleQuotes s ++ chr dquote else s.
Proof.
  unfold escapeCSV, needsQuoting. cbn [isNullish jsToString].
  now rewrite !includes_chr.
Qed.

Lemma unquoteBody_doubleQuotes (s : string) :
  unquoteBody (doubleQuotes s ++ chr dquote) = Some s.
Proof.
  induction s as [|c s' IH].
  - reflexivity.
  - cbn [doubleQuotes].
    destruct (Ascii.eqb c dquote) eqn:Hc.
    + apply Ascii.eqb_eq in Hc. subst c.
      cbn [append unquoteBody]. rewrite Ascii.eqb_refl.
      now rewrite IH.
    + cbn [append unquoteBody]. rewrite Hc. now rewrite IH.
Qed.

Lemma special_chars (s : string) :
  existsb isSpecial (list_ascii_of_string s) = needsQuoting s || hasLineBreak s.
Proof.
  unfold needsQuoting, hasLineBreak, hasChar.
  induction s as [|c s IH]; [reflexivity|].
  cbn [list_ascii_of_string existsb]. rewrite IH.
  unfold isSpecial, isLineBreak.
  rewrite (Ascii.eqb_sym c comma), (Ascii.eqb_sym c dquote),
    (Ascii.eqb_sym c carriageReturn), (Ascii.eqb_sym c newline).
  destruct (Ascii.eqb comma c), (Ascii.eqb dquote c),
    (Ascii.eqb carriageReturn c), (Ascii.eqb newline c),
    (existsb (Ascii.eqb comma) (list_ascii_of_string s)),
    (existsb (Ascii.eqb dquote) (list_ascii_of_string s)),
    (existsb (Ascii.eqb carriageReturn) (list_ascii_of_string s)),
    (existsb (Ascii.eqb newline) (list_ascii_of_string s)); reflexivity.
Qed.

Lemma rfc4180Unquote_escapeCSV (s : string) :
  rfc4180Unquote (escapeCSV (JString s)) = if readable s then Some s else None.
Proof.
  rewrite escapeCSV_string. unfold readable.
  destruct (needsQuoting s) eqn:Hq.
  - cbn [chr append rfc4180Unquote orb]. rewrite Ascii.eqb_refl.
    apply unquoteBody_doubleQuotes.
  - cbn [orb].
    destruct s as [|c s']; [reflexivity|].
    assert (Hc : Ascii.eqb c dquote = false).
    { unfold needsQuoting, hasChar in Hq.
      cbn [list_ascii_of_string existsb] in Hq.
      apply orb_false_elim in Hq as [_ Hq].
      apply orb_false_elim in Hq as [Hq _].
      now rewrite Ascii.eqb_sym. }
    cbn [rfc4180Unquote]. rewrite Hc.
    unfold plainField. rewrite special_chars, Hq. reflexivity.
Qed.

(** C8, as the code has it. [escapeCSV] wraps a string field in double
    quotes, doubling the double quotes inside it, exactly when the field
    holds a comma or a double quote, and leaves it as it is otherwise; the
    example field [johnDoe] becomes [johnDoeEscaped] and reads back.
    Reading the serialised field back by the RFC 4180 rule gives the
    original string exactly when the field holds a comma or a double
    quote, or holds no carriage return and no line feed; a field with a
    line break and neither a comma nor a double quote is written bare and
    is not a field a reader accepts. *)
Theorem escapeCSV_round_trip_unless_bare_line_break :
  (forall s : string,
      escapeCSV (JString s) =
      if needsQuoting s then chr dquote ++ doubleQuotes s ++ chr dquote else s)
  /\ (forall s : string,
         String.length (doubleQuotes s) =
         String.length s + List.length (filter (Ascii.eqb dquote) (list_ascii_of_string s)))
  /\ escapeCSV (JString johnDoe) = johnDoeEscaped
  /\ rfc4180Unquote johnDoeEscaped = Some johnDoe
  /\ (forall s : string,
         rfc4180Unquote (escapeCSV (JString s)) =
         if needsQuoting s || negb (hasLineBreak s) then Some s else None).
Proof.
  split; [exact escapeCSV_string|].
  split.
  { induction s as [|c s' IH]; [reflexivity|].
    cbn [doubleQuotes list_ascii_of_string filter].
    rewrite (Ascii.eqb_sym dquote c).
    destruct (Ascii.eqb c dquote); cbn [String.length List.length]; lia. }
  split; [reflexivity|].
  split; [reflexivity|].
  exact rfc4180Unquote_escapeCSV.
Qed.

(** C8, as the claim has it, fails. A field of two lines with no comma
    and no double quote is written as it is, and a bare line break is not
    allowed in a field that is not quoted: the field does not read
    back. *)
Lemma escapeCSV_bare_line_break_does_not_read_back :
  escapeCSV (JString twoLines) = twoLines
  /\ needsQuoting twoLines = false
  /\ rfc4180Unquote (escapeCSV (JString twoLines)) = None
  /\ rfc4180Unquote (escapeCSV (JString twoLines)) <> Some twoLines.
Proof.
  repeat split. discriminate.
Qed.

Lemma orStr_empty (s : string) : orStr s EmptyString = s.
Proof. now destruct s. Qed.

(** C10. [escapeCSV] has a result for every value: the empty string for
    [null] and [undefined], and for any other value its string form,
    quoted only when that form holds a comma or a double quote.  A field
    that is a single line break is returned as it is, and the export of
    one registration whose name spans two lines carries that line break
    bare, so the file has one more line break than its single record
    accounts for. *)
Theorem escapeCSV_total_newline_bare :
  (forall v : JsValue,
      escapeCSV v =
      if isNullish v then EmptyString
      else if needsQuoting (jsToString v)
           then chr dquote ++ doubleQuotes (jsToString v) ++ chr dquote
           else jsToString v)
  /\ escapeCSV JNull = EmptyString
  /\ escapeCSV JUndefined = EmptyString
  /\ escapeCSV (JString (chr newline)) = chr newline
  /\ (forall (localeDate : string -> string) (reg : Dashboard.Registration.t),
         nth 0 (Dashboard.registrationRow localeDate reg) EmptyString =
         if needsQuoting (Dashboard.Registration.name reg)
         then chr dquote ++ doubleQuotes (Dashboard.Registration.name reg) ++ chr dquote
         else Dashboard.Registration.name reg)
  /\ effectsOf
       (Dashboard.handleExportData (fun s => s) "2025-03-09T10:20:30.000Z"
          Dashboard.ExportRegistrations twoLineState) =
     [Download "registrations-2025-03-09.csv" twoLineCsv]
  /\ List.length (Dashboard.registrations twoLineState) = 1
  /\ lineBreaks twoLineCsv = 2.
Proof.
  split.
  { intros v. unfold escapeCSV, needsQuoting.
    now rewrite !includes_chr. }
  split; [reflexivity|].
  split; [reflexivity|].
  split; [reflexivity|].
  split.
  { intros localeDate reg. cbn [Dashboard.registrationRow nth].
    rewrite orStr_empty. apply escapeCSV_string. }
  split; [reflexivity|].
  split; reflexivity.
Qed.

(** ** Export *)

(** C1, as the code has it. Whatever the search term and the status
    filters, [handleExportData] serialises the whole in-memory list of the
    chosen kind, one row per record of that list, under the fixed header;
    it downloads that text and leaves the component state as it was.  Two
    states with the same lists export the same text. *)
Theorem handleExportData_exports_whole_list :
  forall (localeDate : string -> string) (now : string)
         (kind : Dashboard.ExportKind) (st : Dashboard.State),
    effectsOf (Dashboard.handleExportData localeDate now kind st) =
      [Download (exportFileName now kind) (exportOf localeDate kind (wholeList st))]
    /\ stateAfter (Dashboard.handleExportData localeDate now kind st) = st
    /\ exportedRows localeDate kind (wholeList st) =
         match kind with
         | Dashboard.ExportRegistrations => List.length (Dashboard.registrations st)
         | Dashboard.ExportDonations => List.length (Dashboard.donations st)
         end
    /\ (forall st' : Dashboard.State,
           wholeList st' = wholeList st ->
           effectsOf (Dashboard.handleExportData localeDate now kind st') =
           effectsOf (Dashboard.handleExportData localeDate now kind st)).
Proof.
  intros localeDate now kind st.
  assert (E : forall s,
             effectsOf (Dashboard.handleExportData localeDate now kind s) =
             [Download (exportFileName now kind)
                (exportOf localeDate kind (wholeList s))]).
  { intros s. destruct kind; reflexivity. }
  split; [apply E|].
  split; [destruct kind; reflexivity|].
  split.
  { destruct kind; cbn; apply length_map. }
  intros st' Hsame. now rewrite !E, Hsame.
Qed.

Lemma handleExportData_exports_whole_list_witness :
  effectsOf (Dashboard.handleExportData (fun s => s) "2025-03-09T10:20:30.000Z"
               Dashboard.ExportRegistrations searchState) =
  effectsOf (Dashboard.handleExportData (fun s => s) "2025-03-09T10:20:30.000Z"
               Dashboard.ExportRegistrations twoRegistrationsState).
Proof.
  apply (handleExportData_exports_whole_list (fun s => s)
           "2025-03-09T10:20:30.000Z" Dashboard.ExportRegistrations
           twoRegistrationsState).
  reflexivity.
Defined.

(** C1, as the claim has it, fails. With the search term [ann] the
    filtered view keeps one of two registrations, and the export still
    carries both. *)
Lemma handleExportData_ignores_filter :
  Dashboard.searchTerm searchState <> EmptyString
  /\ Dashboard.filteredRegistrations searchState = [annRegistration]
  /\ exportedRows (fun s => s) Dashboard.ExportRegistrations (wholeList searchState) = 2
  /\ ~ exportsFilteredList (fun s => s) "2025-03-09T10:20:30.000Z"
         Dashboard.ExportRegistrations searchState.
Proof.
  split; [discriminate|].
  split; [reflexivity|].
  split; [reflexivity|].
  unfold exportsFilteredList. vm_compute. discriminate.
Qed.

(** ** Statistics *)

Lemma orZero_id (x : Z) : orZero x = x.
Proof.
  unfold orZero. destruct (Z.eqb_spec x 0); congruence.
Qed.

Lemma fold_left_sum {A} (f : A -> Z) (l : list A) (a : Z) :
  fold_left (fun sum x => (sum + f x)%Z) l a = (a + sumZ (map f l))%Z.
Proof.
  revert a. induction l as [|x l IH]; intros a; cbn [fold_left map].
  - unfold sumZ. cbn. lia.
  - rewrite IH. unfold sumZ. cbn [fold_right]. lia.
Qed.

Lemma fold_left_ext {A} (f g : Z -> A -> Z) (l : list A) (a : Z) :
  (forall s x, f s x = g s x) -> fold_left f l a = fold_left g l a.
Proof.
  intros H. revert a. induction l as [|x l IH]; intros a; cbn; [reflexivity|].
  now rewrite H, IH.
Qed.




(** ** Status updates *)

Lemma length_substring0 (m : nat) (s : string) :
  String.length (String.substring 0 m s) = Nat.min m (String.length s).
Proof.
  revert m. induction s as [|c s IH]; intros [|m]; cbn; try reflexivity.
  now rewrite IH.
Qed.

Lemma allBase36_substring0 (m : nat) (s : string) :
  allBase36 s = true -> allBase36 (String.substring 0 m s) = true.
Proof.
  unfold allBase36.
  revert m. induction s as [|c s IH]; intros [|m] H; cbn; try reflexivity.
  cbn in H. apply andb_true_iff in H as [Hc Hs].
  rewrite Hc. cbn. now apply IH.
Qed.

Lemma random36_digits (random36 : string) :
  isRandom36Text random36 = true ->
  String.length (jsSubstring 2 11 random36) = Nat.min 9 (String.length random36 - 2)
  /\ allBase36 (jsSubstring 2 11 random36) = true.
Proof.
  unfold isRandom36Text.
  change (jsSubstring 2 11 random36) with (String.substring 2 9 random36).
  destruct random36 as [|a [|b ds]]; cbn [stripPrefix]; try discriminate.
  - destruct (Ascii.eqb "0" a); [|discriminate]. intros _. split; reflexivity.
  - destruct (Ascii.eqb "0" a); [|discriminate].
    destruct (Ascii.eqb "." b); [|discriminate].
    intros H. apply andb_true_iff in H as [_ H].
    change (String.substring 2 9 (String a (String b ds)))
      with (String.substring 0 9 ds).
    split.
    + rewrite length_substring0. cbn [String.length]. lia.
    + now apply allBase36_substring0.
Qed.

(** C4, as the code has it. When [Math.random().toString(36)] is the
    text it can be (a zero, or a zero, a point and base-36 digits), the
    patch for paid has a transaction id that is [tx_] followed by the
    first nine of those digits, or by all of them when there are fewer
    than nine: at most nine characters of a-z and 0-9, and exactly nine
    when the text is at least eleven characters long.  The patch for
    pending has no transaction id. *)
Theorem paymentUpdateData_transaction_id :
  (forall random36 now : string,
      isRandom36Text random36 = true ->
      exists body : string,
        Dashboard.patch_transaction_id
          (Dashboard.paymentUpdateData random36 now Dashboard.StatusPaid)
        = Some ("tx_" ++ body)
        /\ body = jsSubstring 2 11 random36
        /\ String.length body = Nat.min 9 (String.length random36 - 2)
        /\ allBase36 body = true
        /\ matchesTxUpToNine ("tx_" ++ body) = true
        /\ matchesTxPattern ("tx_" ++ body) = (11 <=? String.length random36)%nat)
  /\ (forall random36 now : string,
         Dashboard.patch_transaction_id
           (Dashboard.paymentUpdateData random36 now Dashboard.StatusPending)
         = None).
Proof.
  split; [|reflexivity].
  intros random36 now H.
  destruct (random36_digits random36 H) as [Hlen Hall].
  exists (jsSubstring 2 11 random36).
  split; [reflexivity|].
  split; [reflexivity|].
  split; [exact Hlen|].
  split; [exact Hall|].
  unfold matchesTxUpToNine, matchesTxPattern.
  cbn [stripPrefix append Ascii.eqb Bool.eqb].
  rewrite Hall, Hlen, !andb_true_r.
  split.
  - apply Nat.leb_le. lia.
  - destruct (Nat.leb_spec 11 (String.length random36)).
    + apply Nat.eqb_eq. lia.
    + apply Nat.eqb_neq. lia.
Qed.

Lemma paymentUpdateData_transaction_id_witness :
  exists body : string,
    Dashboard.patch_transaction_id
      (Dashboard.paymentUpdateData "0.k3j9x0q2a1w" "2025-03-09T10:20:30.000Z"
         Dashboard.StatusPaid)
    = Some ("tx_" ++ body)
    /\ body = jsSubstring 2 11 "0.k3j9x0q2a1w"
    /\ String.length body = Nat.min 9 (String.length "0.k3j9x0q2a1w" - 2)
    /\ allBase36 body = true
    /\ matchesTxUpToNine ("tx_" ++ body) = true
    /\ matchesTxPattern ("tx_" ++ body) = (11 <=? String.length "0.k3j9x0q2a1w")%nat.
Proof.
  apply (proj1 paymentUpdateData_transaction_id
           "0.k3j9x0q2a1w" "2025-03-09T10:20:30.000Z").
  reflexivity.
Defined.

(** C4, as the claim has it, fails. When [Math.random()] returns one
    half, its base-36 text is a zero, a point and the digit i, and the
    transaction id is [tx_i]: one character after the prefix, not nine. *)
Lemma paymentUpdateData_short_transaction_id :
  isRandom36Text "0.i" = true
  /\ Dashboard.patch_transaction_id
       (Dashboard.paymentUpdateData "0.i" "2025-03-09T10:20:30.000Z"
          Dashboard.StatusPaid)
     = Some "tx_i"
  /\ matchesTxPattern "tx_i" = false.
Proof.
  repeat split.
Qed.

(** C5, as the code has it. When the store update fails, either status
    handler logs the error, shows its error toast and leaves the whole
    component state, both lists included, as it was before the call; no
    reload follows.  The local patch belongs to the success path: after a
    successful update whose reload then fails at the first read, the
    matching local records carry the patch. *)
Theorem failed_update_leaves_state :
  forall (random36 now : string) (replyData : option unit) (err : string)
         (reload : Dashboard.FetchReplies) (id : string) (st : Dashboard.State),
    (forall status : Dashboard.PaymentStatus,
        let r := Dashboard.handleUpdatePaymentStatus random36 now
                   (mkReply replyData (Some err)) reload id status st in
        effectsOf r =
          [ConsoleError "Error updating payment status:" err;
           ToastError "Failed to update payment status" None]
        /\ stateAfter r = st)
    /\ (forall status : Dashboard.DonationStatus,
           let r := Dashboard.handleUpdateDonationStatus now
                      (mkReply replyData (Some err)) reload id status st in
           effectsOf r =
             [ConsoleError "Error updating donation status:" err;
              ToastError "Failed to update donation status" None]
           /\ stateAfter r = st)
    /\ (forall (status : Dashboard.PaymentStatus) (check : Reply unit)
               (dons : Reply (list Dashboard.Donation.t)),
           Dashboard.registrations
             (stateAfter
                (Dashboard.handleUpdatePaymentStatus random36 now
                   (mkReply replyData None)
                   (Dashboard.mkFetchReplies (mkReply None (Some err)) check dons)
                   id status st))
           = locallyPatched id (Dashboard.paymentUpdateData random36 now status)
               (Dashboard.registrations st)).
Proof.
  intros random36 now replyData err reload id st.
  split; [intros status; split; reflexivity|].
  split; [intros status; split; reflexivity|].
  intros status check dons. reflexivity.
Qed.

(** C5, as the claim has it, fails. Marking registration r1 as paid with
    a store that rejects the update shows the error toast, and r1 is
    still pending in the local list: the list is not the patched one. *)
Lemma failed_update_has_no_local_patch :
  let r := Dashboard.handleUpdatePaymentStatus "0.k3j9x0q2a1w"
             "2025-03-09T10:20:30.000Z" (mkReply None (Some "permission denied"))
             failedReload "r1" Dashboard.StatusPaid twoRegistrationsState in
  In (ToastError "Failed to update payment status" None) (effectsOf r)
  /\ map Dashboard.Registration.payment_status
       (Dashboard.registrations (stateAfter r)) = ["pending"; "paid"]
  /\ map Dashboard.Registration.payment_status
       (locallyPatched "r1"
          (Dashboard.paymentUpdateData "0.k3j9x0q2a1w" "2025-03-09T10:20:30.000Z"
             Dashboard.StatusPaid)
          (Dashboard.registrations twoRegistrationsState)) = ["paid"; "paid"]
  /\ Dashboard.registrations (stateAfter r) <>
     locallyPatched "r1"
       (Dashboard.paymentUpdateData "0.k3j9x0q2a1w" "2025-03-09T10:20:30.000Z"
          Dashboard.StatusPaid)
       (Dashboard.registrations twoRegistrationsState).
Proof.
  cbn zeta.
  split; [right; left; reflexivity|].
  split; [reflexivity|].
  split; [reflexivity|].
  vm_compute. discriminate.
Qed.

(** ** Loading *)

(** C6, as the code has it. A load whose registrations read fails logs
    the error, shows the toast and leaves both lists and the statistics
    as they were.  A load whose registrations read succeeds and whose
    donations read fails shows the same toast and leaves the donations
    list and the statistics as they were, and the registrations list is
    by then the freshly read one.  Either way the loading flag ends
    false. *)
Theorem failed_load_state :
  forall (st : Dashboard.State) (err : string) (check : Reply unit),
    (forall (regData : option (list Dashboard.Registration.t))
            (dons : Reply (list Dashboard.Donation.t)),
        let r := Dashboard.fetchData
                   (Dashboard.mkFetchReplies (mkReply regData (Some err)) check dons)
                   st in
        effectsOf r =
          [ConsoleError "Error fetching registrations:" err;
           ConsoleError "Error fetching data:" err;
           ToastError "Failed to load data"
             (Some "Please try again or contact support")]
        /\ stateAfter r =
           Dashboard.mkState (Dashboard.donations st) (Dashboard.registrations st)
             false (Dashboard.searchTerm st) (Dashboard.activeTab st)
             (Dashboard.donationFilter st) (Dashboard.registrationFilter st)
             (Dashboard.statsData st))
    /\ (forall (regData : option (list Dashboard.Registration.t))
               (donData : option (list Dashboard.Donation.t)),
           let r := Dashboard.fetchData
                      (Dashboard.mkFetchReplies (mkReply regData None) check
                         (mkReply donData (Some err)))
                      st in
           In (ToastError "Failed to load data"
                 (Some "Please try again or contact support")) (effectsOf r)
           /\ stateAfter r =
              Dashboard.mkState (Dashboard.donations st) (orEmpty regData)
                false (Dashboard.searchTerm st) (Dashboard.activeTab st)
                (Dashboard.donationFilter st) (Dashboard.registrationFilter st)
                (Dashboard.statsData st)).
Proof.
  intros st err check.
  split.
  - intros regData dons. split; reflexivity.
  - intros regData donData. cbn zeta.
    destruct check as [chkData [chkErr|]]; split; try reflexivity; cbn;
      repeat (first [left; reflexivity | right]).
Qed.

(** C6, as the claim has it, fails. From the empty initial state, a load
    whose registrations read returns one row and whose donations read
    fails shows the toast and leaves that row in the registrations
    list. *)
Lemma failed_donations_read_replaces_registrations :
  let r := Dashboard.fetchData
             (Dashboard.mkFetchReplies
                (mkReply (Some [annRegistration]) None)
                (mkReply (Some tt) None)
                (mkReply None (Some "permission denied")))
             Dashboard.initialState in
  In (ToastError "Failed to load data" (Some "Please try again or contact support"))
     (effectsOf r)
  /\ Dashboard.registrations Dashboard.initialState = []
  /\ Dashboard.registrations (stateAfter r) = [annRegistration]
  /\ Dashboard.registrations (stateAfter r) <>
     Dashboard.registrations Dashboard.initialState.
Proof.
  cbn zeta.
  split; [right; right; left; reflexivity|].
  split; [reflexivity|].
  split; [reflexivity|].
  vm_compute. discriminate.
Qed.

(** ** Donation submission *)

(** C2. When the gateway is ready, the intent is created, the card
    widget is present and the payment is confirmed, and the insert then
    answers with an error, [onSubmit] logs that error and goes on: it
    shows the success toast and navigates to the confirmation view with
    the donor's name, email, amount, designation and anonymity flag and
    the payment reference.  No error toast is shown, the handler ends
    normally with the in-flight flag cleared, and what the user sees is
    what is seen when the insert succeeds. *)
Theorem onSubmit_insert_failure_still_navigates :
  forall (data : DonationForm.FormData)
         (clientSecret paymentIntentId dbError now : string)
         (replyData : option unit) (st : DonationForm.State),
    let env := DonationForm.mkEnv true true (Return clientSecret) true
                 (DonationForm.ConfirmPaid paymentIntentId)
                 (mkReply replyData (Some dbError)) now in
    let envOk := DonationForm.mkEnv true true (Return clientSecret) true
                   (DonationForm.ConfirmPaid paymentIntentId)
                   (mkReply replyData None) now in
    let r := DonationForm.onSubmit env data st in
    let shown :=
      [ToastSuccess "Donation successful!"
         (Some "Thank you for your generous support.");
       Navigate "/donation-success"
         (mkDonationData
            (DonationForm.firstName data ++ " " ++ DonationForm.lastName data)
            (DonationForm.email data) (DonationForm.amount data)
            (DonationForm.designation data)
            (DonationForm.orFalse (DonationForm.isAnonymous data)))
         paymentIntentId] in
    effectsOf r =
      ([CreatePaymentIntent (DonationForm.amount data * 100)
         ("Donation to Tulip Kids Foundation - "
          ++ orStrOpt (DonationForm.designation data) "General");
       ConfirmCardPayment clientSecret
         (DonationForm.firstName data ++ " " ++ DonationForm.lastName data)
         (DonationForm.email data);
       StoreInsert "donations"
         (mkDonationInsert (DonationForm.firstName data) (DonationForm.lastName data)
            (DonationForm.email data) (DonationForm.amount data)
            (DonationForm.designation data)
            (DonationForm.orFalse (DonationForm.isAnonymous data))
            paymentIntentId "Website Donation" "completed" now);
       ConsoleError "Database error:" dbError]
       ++ shown)%list
    /\ filter userFacing (effectsOf r) = shown
    /\ filter isConsoleError (effectsOf r) = [ConsoleError "Database error:" dbError]
    /\ filter isToastError (effectsOf r) = []
    /\ outcomeOf r = Return tt
    /\ DonationForm.isProcessingPayment (stateAfter r) = false
    /\ filter userFacing (effectsOf (DonationForm.onSubmit envOk data st)) = shown.
Proof.
  intros data clientSecret paymentIntentId dbError now replyData st.
  cbn zeta.
  repeat (split; [reflexivity|]).
  reflexivity.
Qed.

(** ** Filtering *)

Lemma filter_filter_and {A} (p q : A -> bool) (l : list A) :
  filter p (filter q l) = filter (fun x => q x && p x) l.
Proof.
  induction l as [|x l IH]; cbn; [reflexivity|].
  destruct (q x); cbn; [destruct (p x)|]; now rewrite IH.
Qed.

Lemma filter_comm {A} (p q : A -> bool) (l : list A) :
  filter p (filter q l) = filter q (filter p l).
Proof.
  rewrite !filter_filter_and. apply filter_ext.
  intros x. apply andb_comm.
Qed.

Lemma filter_idem {A} (p : A -> bool) (l : list A) :
  filter p (filter p l) = filter p l.
Proof.
  rewrite filter_filter_and. apply filter_ext.
  intros x. now destruct (p x).
Qed.

Lemma registrationVisible_split (term flt : string) (reg : Dashboard.Registration.t) :
  Dashboard.registrationVisible term flt reg =
  registrationMatchesSearch term reg && registrationHasStatus flt reg.
Proof.
  unfold Dashboard.registrationVisible, registrationMatchesSearch,
    registrationHasStatus.
  destruct (flt =? "all"); cbn [orb]; [now rewrite andb_true_r | reflexivity].
Qed.

Lemma donationVisible_split (term flt : string) (don : Dashboard.Donation.t) :
  Dashboard.donationVisible term flt don =
  donationMatchesSearch term don && donationHasStatus flt don.
Proof.
  unfold Dashboard.donationVisible, donationMatchesSearch, donationHasStatus.
  destruct (flt =? "all"); cbn [orb]; [now rewrite andb_true_r | reflexivity].
Qed.

(** C9. For every state (any lists, search term and status filters), the
    filtered view of each kind is the free-text filter applied after the
    status filter and equally the status filter applied after the
    free-text filter; and for every list, applying the free-text filter
    twice, or the status filter twice, gives what applying it once
    gives. *)
Theorem filters_commute_and_are_idempotent :
  (forall st : Dashboard.State,
      let term := Dashboard.searchTerm st in
      let flt := Dashboard.registrationFilter st in
      let regs := Dashboard.registrations st in
      Dashboard.filteredRegistrations st =
        filter (registrationMatchesSearch term) (filter (registrationHasStatus flt) regs)
      /\ Dashboard.filteredRegistrations st =
           filter (registrationHasStatus flt) (filter (registrationMatchesSearch term) regs))
  /\ (forall st : Dashboard.State,
         let term := Dashboard.searchTerm st in
         let flt := Dashboard.donationFilter st in
         let dons := Dashboard.donations st in
         Dashboard.filteredDonations st =
           filter (donationMatchesSearch term) (filter (donationHasStatus flt) dons)
         /\ Dashboard.filteredDonations st =
              filter (donationHasStatus flt) (filter (donationMatchesSearch term) dons))
  /\ (forall (term flt : string) (regs : list Dashboard.Registration.t),
         filter (registrationMatchesSearch term)
           (filter (registrationMatchesSearch term) regs)
         = filter (registrationMatchesSearch term) regs
         /\ filter (registrationHasStatus flt) (filter (registrationHasStatus flt) regs)
            = filter (registrationHasStatus flt) regs
         /\ filter (Dashboard.registrationVisible term flt)
              (filter (Dashboard.registrationVisible term flt) regs)
            = filter (Dashboard.registrationVisible term flt) regs)
  /\ (forall (term flt : string) (dons : list Dashboard.Donation.t),
         filter (donationMatchesSearch term) (filter (donationMatchesSearch term) dons)
         = filter (donationMatchesSearch term) dons
         /\ filter (donationHasStatus flt) (filter (donationHasStatus flt) dons)
            = filter (donationHasStatus flt) dons
         /\ filter (Dashboard.donationVisible term flt)
              (filter (Dashboard.donationVisible term flt) dons)
            = filter (Dashboard.donationVisible term flt) dons).
Proof.
  split.
  { intros st. cbn zeta. unfold Dashboard.filteredRegistrations.
    split.
    - rewrite filter_filter_and. apply filter_ext. intros reg.
      rewrite registrationVisible_split. apply andb_comm.
    - rewrite filter_filter_and. apply filter_ext. intros reg.
      apply registrationVisible_split. }
  split.
  { intros st. cbn zeta. unfold Dashboard.filteredDonations.
    split.
    - rewrite filter_filter_and. apply filter_ext. intros don.
      rewrite donationVisible_split. apply andb_comm.
    - rewrite filter_filter_and. apply filter_ext. intros don.
      apply donationVisible_split. }
  split; intros term flt l; repeat split; apply filter_idem.
Qed.

(** ** The transaction-id invariant *)

Lemma txOnlyWhenPaid_spec (reg : Dashboard.Registration.t) :
  txOnlyWhenPaid reg = true <->
  (Dashboard.Registration.transaction_id reg <> None ->
   Dashboard.Registration.payment_status reg = "paid").
Proof.
  unfold txOnlyWhenPaid.
  destruct (Dashboard.Registration.transaction_id reg) as [tx|].
  - rewrite String.eqb_eq. split; [auto | intros H; apply H; discriminate].
  - split; [intros _ H; now elim H | reflexivity].
Qed.

Lemma spreadPayment_txOnlyWhenPaid (reg : Dashboard.Registration.t)
    (random36 now : string) (status : Dashboard.PaymentStatus) :
  txOnlyWhenPaid
    (Dashboard.spreadPayment reg (Dashboard.paymentUpdateData random36 now status))
  = true.
Proof. now destruct status. Qed.

Lemma locallyPatched_allTxOnlyWhenPaid (id random36 now : string)
    (status : Dashboard.PaymentStatus) (regs : list Dashboard.Registration.t) :
  allTxOnlyWhenPaid regs = true ->
  allTxOnlyWhenPaid
    (locallyPatched id (Dashboard.paymentUpdateData random36 now status) regs) = true.
Proof.
  unfold allTxOnlyWhenPaid, locallyPatched.
  induction regs as [|reg regs IH]; cbn [map forallb]; [reflexivity|].
  intros H. apply andb_true_iff in H as [Hreg Hregs].
  rewrite (IH Hregs), andb_true_r.
  destruct (Dashboard.Registration.id reg =? id);
    [apply spreadPayment_txOnlyWhenPaid | exact Hreg].
Qed.

Lemma insertDesc_forallb {A} (key : A -> string) (P : A -> bool) (x : A) (xs : list A) :
  forallb P (System.insertDesc key x xs) = P x && forallb P xs.
Proof.
  induction xs as [|y ys IH]; cbn [System.insertDesc forallb]; [reflexivity|].
  destruct (String.leb (key y) (key x)); cbn [forallb]; [reflexivity|].
  rewrite IH. now destruct (P x), (P y).
Qed.

Lemma orderDesc_forallb {A} (key : A -> string) (P : A -> bool) (xs : list A) :
  forallb P (System.orderDesc key xs) = forallb P xs.
Proof.
  induction xs as [|x xs IH]; cbn [System.orderDesc forallb]; [reflexivity|].
  now rewrite insertDesc_forallb, IH.
Qed.

Lemma updatePaymentStatus_store (c : System.PaymentCall) (sys : System.t) :
  System.registrationsTable (System.store (System.updatePaymentStatus c sys)) =
  if System.call_mayUpdate c
  then locallyPatched (System.call_id c)
         (Dashboard.paymentUpdateData (System.call_random36 c) (System.call_now c)
            (System.call_status c))
         (System.registrationsTable (System.store sys))
  else System.registrationsTable (System.store sys).
Proof.
  unfold System.updatePaymentStatus.
  destruct (System.call_mayUpdate c); reflexivity.
Qed.

Lemma updatePaymentStatus_ui (c : System.PaymentCall) (sys : System.t) :
  let regs' := Dashboard.registrations (System.ui (System.updatePaymentStatus c sys)) in
  regs' = Dashboard.registrations (System.ui sys)
  \/ regs' = locallyPatched (System.call_id c)
               (Dashboard.paymentUpdateData (System.call_random36 c) (System.call_now c)
                  (System.call_status c))
               (Dashboard.registrations (System.ui sys))
  \/ regs' = System.orderDesc Dashboard.Registration.created_at
               (System.registrationsTable
                  (System.store (System.updatePaymentStatus c sys))).
Proof.
  destruct c as [id status random36 now mayUpdate [mayRegs mayCheck mayDons]].
  destruct sys as [[regsTable donsTable] st].
  cbn zeta.
  destruct mayUpdate; [|left; reflexivity].
  destruct mayRegs; [right; right | right; left];
    destruct mayCheck, mayDons; reflexivity.
Qed.

Lemma updatePaymentStatus_invariant (c : System.PaymentCall) (sys : System.t) :
  systemInvariant sys = true -> systemInvariant (System.updatePaymentStatus c sys) = true.
Proof.
  unfold systemInvariant. intros H.
  apply andb_true_iff in H as [Hstore Hui].
  assert (Hstore' :
            allTxOnlyWhenPaid
              (System.registrationsTable
                 (System.store (System.updatePaymentStatus c sys))) = true).
  { rewrite updatePaymentStatus_store.
    destruct (System.call_mayUpdate c);
      [now apply locallyPatched_allTxOnlyWhenPaid | exact Hstore]. }
  rewrite Hstore'. cbn [andb].
  destruct (updatePaymentStatus_ui c sys) as [E|[E|E]]; rewrite E.
  - exact Hui.
  - now apply locallyPatched_allTxOnlyWhenPaid.
  - unfold allTxOnlyWhenPaid. rewrite orderDesc_forallb. exact Hstore'.
Qed.

(** C7. A registration satisfies the invariant when its transaction id
    is non-null only if its payment status is paid.  The record patched
    for paid has status paid and a non-null transaction id; the record
    patched for pending has status pending and a null one.  Whenever every
    registration row of the store and every registration of the local
    list satisfies the invariant, they all still do after any sequence of
    [updatePaymentStatus] calls, whatever the ids, statuses, random texts
    and outcomes of the store's access checks. *)
Theorem updatePaymentStatus_keeps_invariant :
  (forall reg : Dashboard.Registration.t,
      txOnlyWhenPaid reg = true <->
      (Dashboard.Registration.transaction_id reg <> None ->
       Dashboard.Registration.payment_status reg = "paid"))
  /\ (forall (reg : Dashboard.Registration.t) (random36 now : string),
         let paid := Dashboard.spreadPayment reg
                       (Dashboard.paymentUpdateData random36 now Dashboard.StatusPaid) in
         let pending := Dashboard.spreadPayment reg
                          (Dashboard.paymentUpdateData random36 now Dashboard.StatusPending) in
         Dashboard.Registration.payment_status paid = "paid"
         /\ Dashboard.Registration.transaction_id paid <> None
         /\ Dashboard.Registration.payment_status pending = "pending"
         /\ Dashboard.Registration.transaction_id pending = None)
  /\ (forall (calls : list System.PaymentCall) (sys : System.t),
         systemInvariant sys = true ->
         systemInvariant (System.updatePaymentStatusMany calls sys) = true).
Proof.
  split; [exact txOnlyWhenPaid_spec|].
  split.
  { intros reg random36 now. cbn. repeat split. discriminate. }
  intros calls. unfold System.updatePaymentStatusMany.
  induction calls as [|c calls IH]; intros sys H; cbn [fold_left]; [exact H|].
  apply IH. now apply updatePaymentStatus_invariant.
Qed.

Lemma updatePaymentStatus_keeps_invariant_witness :
  systemInvariant (System.updatePaymentStatusMany exampleCalls exampleSystem) = true.
Proof.
  apply (proj2 (proj2 updatePaymentStatus_keeps_invariant) exampleCalls exampleSystem).
  reflexivity.
Defined.

(** * Further properties of the code *)

(** ** Exported lines read back *)

Lemma string_append_assoc (a b c : string) : (a ++ b) ++ c = a ++ (b ++ c).
Proof.
  induction a as [|x a IH]; cbn; [reflexivity | now rewrite IH].
Qed.

Lemma finish_rev_chars (s : string) :
  CsvReader.finish (rev (list_ascii_of_string s) ++ []) = s.
Proof.
  unfold CsvReader.finish.
  now rewrite app_nil_r, rev_involutive, string_of_list_ascii_of_string.
Qed.

Lemma join_escaped (x : string) (xs : list string) :
  join "," (map (fun s => escapeCSV (JString s)) (x :: xs)) =
  escapeCSV (JString x) ++ restOfLine xs.
Proof.
  revert x. induction xs as [|y ys IH]; intros x.
  - cbn [map join restOfLine].
    induction (escapeCSV (JString x)) as [|c e IHe]; cbn; [reflexivity | now rewrite <- IHe].
  - change (join "," (map (fun s => escapeCSV (JString s)) (x :: y :: ys)))
      with (escapeCSV (JString x) ++ "," ++
            join "," (map (fun s => escapeCSV (JString s)) (y :: ys))).
    now rewrite IH.
Qed.

Lemma needsQuoting_cons (c : ascii) (s : string) :
  needsQuoting (String c s) =
  (Ascii.eqb c comma || Ascii.eqb c dquote) || needsQuoting s.
Proof.
  unfold needsQuoting, hasChar. cbn [list_ascii_of_string existsb].
  rewrite (Ascii.eqb_sym c comma), (Ascii.eqb_sym c dquote).
  destruct (Ascii.eqb comma c), (Ascii.eqb dquote c),
    (existsb (Ascii.eqb comma) (list_ascii_of_string s)),
    (existsb (Ascii.eqb dquote) (list_ascii_of_string s)); reflexivity.
Qed.

Lemma hasLineBreak_cons (c : ascii) (s : string) :
  hasLineBreak (String c s) = isLineBreak c || hasLineBreak s.
Proof.
  unfold hasLineBreak, hasChar, isLineBreak. cbn [list_ascii_of_string existsb].
  rewrite (Ascii.eqb_sym c carriageReturn), (Ascii.eqb_sym c newline).
  destruct (Ascii.eqb carriageReturn c), (Ascii.eqb newline c),
    (existsb (Ascii.eqb carriageReturn) (list_ascii_of_string s)),
    (existsb (Ascii.eqb newline) (list_ascii_of_string s)); reflexivity.
Qed.

Lemma readFrom_plain (s : string) :
  needsQuoting s = false -> hasLineBreak s = false ->
  forall (m : CsvReader.Mode) (acc : list ascii) (t : string),
    m = CsvReader.FieldStart \/ m = CsvReader.InPlain ->
    exists m',
      (m' = CsvReader.FieldStart \/ m' = CsvReader.InPlain)
      /\ CsvReader.readFrom m acc (s ++ t) =
         CsvReader.readFrom m' (rev (list_ascii_of_string s) ++ acc) t.
Proof.
  induction s as [|c s IH]; intros Hplain Hline m acc t Hm.
  - exists m. split; [exact Hm | reflexivity].
  - rewrite needsQuoting_cons in Hplain. rewrite hasLineBreak_cons in Hline.
    apply orb_false_elim in Hplain as [Hc Hs].
    apply orb_false_elim in Hc as [Hc Hq].
    apply orb_false_elim in Hline as [Hb Hl].
    destruct (IH Hs Hl CsvReader.InPlain (c :: acc) t (or_intror eq_refl))
      as [m' [Hm' E]].
    exists m'. split; [exact Hm'|].
    cbn [list_ascii_of_string rev]. rewrite <- app_assoc. cbn [app].
    rewrite <- E.
    destruct Hm as [-> | ->]; cbn [append CsvReader.readFrom];
      rewrite Hc, Hq, Hb; reflexivity.
Qed.

Lemma readFrom_bare_line_break (s : string) :
  needsQuoting s = false -> hasLineBreak s = true ->
  forall (m : CsvReader.Mode) (acc : list ascii) (t : string),
    m = CsvReader.FieldStart \/ m = CsvReader.InPlain ->
    CsvReader.readFrom m acc (s ++ t) = None.
Proof.
  induction s as [|c s IH]; intros Hplain Hline m acc t Hm; [discriminate|].
  rewrite needsQuoting_cons in Hplain. rewrite hasLineBreak_cons in Hline.
  apply orb_false_elim in Hplain as [Hc Hs].
  apply orb_false_elim in Hc as [Hc Hq].
  destruct (isLineBreak c) eqn:Hb.
  - destruct Hm as [-> | ->]; cbn [append CsvReader.readFrom];
      rewrite Hc, Hq, Hb; reflexivity.
  - cbn [orb] in Hline.
    pose proof (IH Hs Hline CsvReader.InPlain (c :: acc) t (or_intror eq_refl)) as E.
    destruct Hm as [-> | ->]; cbn [append CsvReader.readFrom];
      rewrite Hc, Hq, Hb; exact E.
Qed.

Lemma readFrom_quoted (s : string) :
  forall (acc : list ascii) (t : string),
    CsvReader.readFrom CsvReader.InQuoted acc (doubleQuotes s ++ String dquote t) =
    CsvReader.readFrom CsvReader.AfterQuote (rev (list_ascii_of_string s) ++ acc) t.
Proof.
  induction s as [|c s IH]; intros acc t.
  - cbn. reflexivity.
  - cbn [doubleQuotes list_ascii_of_string rev].
    rewrite <- app_assoc. cbn [app].
    destruct (Ascii.eqb c dquote) eqn:Hc.
    + apply Ascii.eqb_eq in Hc. subst c.
      cbn [append CsvReader.readFrom]. rewrite Ascii.eqb_refl.
      apply IH.
    + cbn [append CsvReader.readFrom]. rewrite Hc. apply IH.
Qed.

Lemma readFrom_field (x : string) (t : string) :
  readable x = true ->
  exists (m : CsvReader.Mode) (acc : list ascii),
    m <> CsvReader.InQuoted
    /\ CsvReader.finish acc = x
    /\ CsvReader.readFrom CsvReader.FieldStart [] (escapeCSV (JString x) ++ t) =
       CsvReader.readFrom m acc t.
Proof.
  unfold readable. rewrite escapeCSV_string.
  destruct (needsQuoting x) eqn:Hq; cbn [orb]; intros Hr.
  - exists CsvReader.AfterQuote, (rev (list_ascii_of_string x) ++ [])%list.
    split; [discriminate|]. split; [apply finish_rev_chars|].
    rewrite !string_append_assoc.
    cbn [chr append CsvReader.readFrom]. rewrite Ascii.eqb_refl.
    apply readFrom_quoted.
  - apply negb_true_iff in Hr.
    destruct (readFrom_plain x Hq Hr CsvReader.FieldStart [] t (or_introl eq_refl))
      as [m [Hm E]].
    exists m, (rev (list_ascii_of_string x) ++ [])%list.
    split; [destruct Hm as [-> | ->]; discriminate|].
    split; [apply finish_rev_chars | exact E].
Qed.

Lemma readFrom_field_unreadable (x : string) (t : string) :
  readable x = false ->
  CsvReader.readFrom CsvReader.FieldStart [] (escapeCSV (JString x) ++ t) = None.
Proof.
  unfold readable. rewrite escapeCSV_string.
  destruct (needsQuoting x) eqn:Hq; cbn [orb]; intros Hr; [discriminate|].
  apply negb_false_iff in Hr.
  exact (readFrom_bare_line_break x Hq Hr CsvReader.FieldStart [] t (or_introl eq_refl)).
Qed.

Lemma readFrom_rest (xs : list string) :
  forall (m : CsvReader.Mode) (acc : list ascii),
    m <> CsvReader.InQuoted ->
    CsvReader.readFrom m acc (restOfLine xs) =
    if forallb readable xs then Some (CsvReader.finish acc :: xs) else None.
Proof.
  induction xs as [|x xs IH]; intros m acc Hm.
  - destruct m; cbn; congruence.
  - assert (E : CsvReader.readFrom m acc (restOfLine (x :: xs)) =
                option_map (cons (CsvReader.finish acc))
                  (CsvReader.readFrom CsvReader.FieldStart []
                     (escapeCSV (JString x) ++ restOfLine xs))).
    { destruct m; [reflexivity | reflexivity | congruence | reflexivity]. }
    rewrite E. cbn [forallb].
    destruct (readable x) eqn:Hx; cbn [andb].
    + destruct (readFrom_field x (restOfLine xs) Hx) as [m' [acc' [Hm' [Hacc' E']]]].
      rewrite E', (IH m' acc' Hm'), Hacc'.
      destruct (forallb readable xs); reflexivity.
    + now rewrite (readFrom_field_unreadable x (restOfLine xs) Hx).
Qed.

Lemma readRecord_escaped (x : string) (xs : list string) :
  CsvReader.readRecord (join "," (map (fun s => escapeCSV (JString s)) (x :: xs))) =
  if forallb readable (x :: xs) then Some (x :: xs) else None.
Proof.
  unfold CsvReader.readRecord. rewrite join_escaped. cbn [forallb].
  destruct (readable x) eqn:Hx; cbn [andb].
  - destruct (readFrom_field x (restOfLine xs) Hx) as [m [acc [Hm [Hacc E]]]].
    rewrite E, (readFrom_rest xs m acc Hm), Hacc.
    destruct (forallb readable xs); reflexivity.
  - apply (readFrom_field_unreadable x (restOfLine xs) Hx).
Qed.

(** X1. A line made by joining escaped fields with commas reads back,
    by the RFC 4180 rule for one record, as exactly the original fields
    when every field holds a comma or a double quote or else holds no line
    break; this is so whatever else the fields hold and however many there
    are (at least one).  When some field holds a carriage return or a line
    feed and neither a comma nor a double quote, the line is not a
    well-formed record and is refused. *)
Theorem escaped_line_reads_back :
  forall (x : string) (xs : list string),
    CsvReader.readRecord
      (join "," (map (fun s => escapeCSV (JString s)) (x :: xs)))
    = if forallb (fun s => needsQuoting s || negb (hasLineBreak s)) (x :: xs)
      then Some (x :: xs)
      else None.
Proof.
  exact readRecord_escaped.
Qed.

Lemma registrationRow_values (localeDate : string -> string)
    (reg : Dashboard.Registration.t) :
  Dashboard.registrationRow localeDate reg =
  map (fun s => escapeCSV (JString s)) (registrationValues localeDate reg).
Proof.
  unfold Dashboard.registrationRow, registrationValues. cbn [map].
  rewrite !orStr_empty, !orZero_id.
  repeat f_equal.
  - destruct (Dashboard.Registration.transaction_id reg) as [[|c tx]|]; reflexivity.
  - destruct (Dashboard.Registration.created_at reg); reflexivity.
Qed.

Lemma donationRow_values (localeDate : string -> string)
    (don : Dashboard.Donation.t) :
  Dashboard.donationRow localeDate don =
  map (fun s => escapeCSV (JString s)) (donationValues localeDate don).
Proof.
  unfold Dashboard.donationRow, donationValues. cbn [map].
  rewrite !orStr_empty, !orZero_id.
  repeat f_equal.
  destruct (Dashboard.Donation.created_at don); reflexivity.
Qed.

(** X2. An exported data line reads back, by the RFC 4180 rule for
    one record, as the record's own values in column order: eleven for a
    registration (name, email, phone, the two counts and the amount as
    whole numbers in decimal, family type, status, the transaction id or
    N/A when it is null or empty, the formatted date or nothing when
    [created_at] is empty, the sizes joined by a comma and a space or N/A
    when there are none), nine for a donation.  It does so exactly when
    each value holds a comma or a double quote or else no line break;
    otherwise the line is refused.  The two header lines read back as the
    column names, and each data line has as many cells as its header. *)
Theorem exported_line_reads_back :
  forall localeDate : string -> string,
    (forall reg : Dashboard.Registration.t,
        CsvReader.readRecord (join "," (Dashboard.registrationRow localeDate reg))
        = if forallb readable (registrationValues localeDate reg)
          then Some (registrationValues localeDate reg)
          else None)
    /\ (forall don : Dashboard.Donation.t,
           CsvReader.readRecord (join "," (Dashboard.donationRow localeDate don))
           = if forallb readable (donationValues localeDate don)
             then Some (donationValues localeDate don)
             else None)
    /\ CsvReader.readRecord (join "," Dashboard.registrationHeaders)
       = Some Dashboard.registrationHeaders
    /\ CsvReader.readRecord (join "," Dashboard.donationHeaders)
       = Some Dashboard.donationHeaders
    /\ (forall reg : Dashboard.Registration.t,
           List.length (Dashboard.registrationRow localeDate reg)
           = List.length Dashboard.registrationHeaders)
    /\ (forall don : Dashboard.Donation.t,
           List.length (Dashboard.donationRow localeDate don)
           = List.length Dashboard.donationHeaders).
Proof.
  intros localeDate.
  split.
  { intros reg. rewrite registrationRow_values. apply readRecord_escaped. }
  split.
  { intros don. rewrite donationRow_values. apply readRecord_escaped. }
  repeat split; reflexivity.
Qed.

Lemma lineBreaks_append (a b : string) :
  lineBreaks (a ++ b) = lineBreaks a + lineBreaks b.
Proof.
  unfold lineBreaks.
  induction a as [|c a IH]; cbn [append list_ascii_of_string filter]; [reflexivity|].
  destruct (Ascii.eqb newline c); cbn [List.length]; now rewrite IH.
Qed.

Lemma lineBreaks_doubleQuotes (s : string) :
  lineBreaks (doubleQuotes s) = lineBreaks s.
Proof.
  unfold lineBreaks.
  induction s as [|c s IH]; [reflexivity|].
  cbn [doubleQuotes].
  destruct (Ascii.eqb c dquote) eqn:Hc.
  - apply Ascii.eqb_eq in Hc. subst c.
    cbn [list_ascii_of_string filter].
    change (Ascii.eqb newline dquote) with false. cbn iota. exact IH.
  - cbn [list_ascii_of_string filter].
    destruct (Ascii.eqb newline c); cbn [List.length]; now rewrite IH.
Qed.

Lemma lineBreaks_escapeCSV (s : string) :
  lineBreaks (escapeCSV (JString s)) = lineBreaks s.
Proof.
  rewrite escapeCSV_string.
  destruct (needsQuoting s); [|reflexivity].
  rewrite !lineBreaks_append, lineBreaks_doubleQuotes.
  change (lineBreaks (chr dquote)) with 0. lia.
Qed.

Lemma lineBreaks_join (sep : string) (xs : list string) :
  lineBreaks (join sep xs) =
  list_sum (map lineBreaks xs) + Nat.pred (List.length xs) * lineBreaks sep.
Proof.
  induction xs as [|x [|y ys] IH].
  - reflexivity.
  - unfold list_sum. cbn [join map fold_right List.length Nat.pred Nat.mul]. lia.
  - change (join sep (x :: y :: ys)) with (x ++ sep ++ join sep (y :: ys)).
    rewrite !lineBreaks_append, IH.
    unfold list_sum. cbn [map fold_right List.length Nat.pred Nat.mul]. lia.
Qed.

Lemma lineBreaks_csvContent (headers : list string) (rows : list (list string)) :
  lineBreaks (Dashboard.csvContent headers rows) =
  lineBreaks (join "," headers)
  + List.length rows
  + list_sum (map (fun row => list_sum (map lineBreaks row)) rows).
Proof.
  unfold Dashboard.csvContent.
  rewrite lineBreaks_join. cbn [map List.length Nat.pred].
  change (lineBreaks (chr newline)) with 1.
  rewrite length_map, map_map.
  change (list_sum (?a :: ?l)) with (a + list_sum l).
  assert (E : map (fun row => lineBreaks (join "," row)) rows =
              map (fun row => list_sum (map lineBreaks row)) rows).
  { apply map_ext. intros row. rewrite lineBreaks_join.
    change (lineBreaks ",") with 0. lia. }
  rewrite E. lia.
Qed.

Lemma lineBreaks_escaped_values (values : list string) :
  list_sum (map lineBreaks (map (fun s => escapeCSV (JString s)) values)) =
  list_sum (map lineBreaks values).
Proof.
  rewrite map_map. f_equal. apply map_ext. intros s. apply lineBreaks_escapeCSV.
Qed.

(** X4. The number of line breaks of an export is the number of
    exported records plus the number of line breaks inside their values:
    escaping neither adds nor removes a line break, and the header has
    none.  So the file has exactly one line per record after the header
    when no value holds a line break, and one stray line for each line
    break a value does hold. *)
Theorem export_line_breaks :
  forall (localeDate : string -> string)
         (regs : list Dashboard.Registration.t) (dons : list Dashboard.Donation.t),
    lineBreaks (exportOf localeDate Dashboard.ExportRegistrations (regs, dons)) =
      List.length regs
      + list_sum (map (fun reg =>
                         list_sum (map lineBreaks (registrationValues localeDate reg)))
                      regs)
    /\ lineBreaks (exportOf localeDate Dashboard.ExportDonations (regs, dons)) =
         List.length dons
         + list_sum (map (fun don =>
                            list_sum (map lineBreaks (donationValues localeDate don)))
                         dons).
Proof.
  intros localeDate regs dons.
  unfold exportOf. cbn [fst snd].
  rewrite !lineBreaks_csvContent, !length_map, !map_map.
  split.
  - change (lineBreaks (join "," Dashboard.registrationHeaders)) with 0.
    cbn [Nat.add]. f_equal. f_equal. apply map_ext. intros reg.
    rewrite registrationRow_values. apply lineBreaks_escaped_values.
  - change (lineBreaks (join "," Dashboard.donationHeaders)) with 0.
    cbn [Nat.add]. f_equal. f_equal. apply map_ext. intros don.
    rewrite donationRow_values. apply lineBreaks_escaped_values.
Qed.

Lemma beforeFirst_append (c : ascii) (a b : string) :
  hasChar c a = false -> beforeFirst c (a ++ String c b) = a.
Proof.
  unfold hasChar.
  induction a as [|d a IH]; cbn [append beforeFirst list_ascii_of_string existsb].
  - intros _. now rewrite Ascii.eqb_refl.
  - intros H. apply orb_false_elim in H as [Hd Ha].
    rewrite Ascii.eqb_sym, Hd. now rewrite IH.
Qed.

Lemma beforeFirst_absent (c : ascii) (a : string) :
  hasChar c a = false -> beforeFirst c a = a.
Proof.
  unfold hasChar.
  induction a as [|d a IH]; cbn [beforeFirst list_ascii_of_string existsb];
    [reflexivity|].
  intros H. apply orb_false_elim in H as [Hd Ha].
  rewrite Ascii.eqb_sym, Hd. now rewrite IH.
Qed.

(** X5. The downloaded file is named after the kind and the date part
    of the clock's ISO text: when that text is a date free of the letter
    T, then a T, then a time, the name is the kind, a hyphen, the date and
    the extension csv; a clock text without any T is used whole. *)
Theorem export_file_name :
  forall (localeDate : string -> string) (date time : string)
         (kind : Dashboard.ExportKind) (st : Dashboard.State),
    hasChar "T" date = false ->
    filter isDownload
      (effectsOf (Dashboard.handleExportData localeDate (date ++ String "T" time) kind st))
    = [Download (Dashboard.exportKindName kind ++ "-" ++ date ++ ".csv")
         (exportOf localeDate kind (wholeList st))]
    /\ exportFileName date kind = Dashboard.exportKindName kind ++ "-" ++ date ++ ".csv".
Proof.
  intros localeDate date time kind st Hdate.
  split.
  - destruct kind; cbn; rewrite (beforeFirst_append _ _ _ Hdate); reflexivity.
  - unfold exportFileName. now rewrite (beforeFirst_absent _ _ Hdate).
Qed.

Lemma export_file_name_witness :
  filter isDownload
    (effectsOf (Dashboard.handleExportData (fun s => s)
                  ("2025-03-09" ++ String "T" "10:20:30.000Z")
                  Dashboard.ExportDonations twoRegistrationsState))
  = [Download (Dashboard.exportKindName Dashboard.ExportDonations
               ++ "-" ++ "2025-03-09" ++ ".csv")
       (exportOf (fun s => s) Dashboard.ExportDonations
          (wholeList twoRegistrationsState))]
  /\ exportFileName "2025-03-09" Dashboard.ExportDonations =
     Dashboard.exportKindName Dashboard.ExportDonations ++ "-" ++ "2025-03-09" ++ ".csv".
Proof.
  apply (export_file_name (fun s => s) "2025-03-09" "10:20:30.000Z"
           Dashboard.ExportDonations twoRegistrationsState).
  reflexivity.
Defined.

(** ** The name cell of a donation *)

Lemma trimEnd_idem (s : string) : trimEnd (trimEnd s) = trimEnd s.
Proof.
  induction s as [|c s IH]; [reflexivity|].
  cbn [trimEnd].
  destruct (trimEnd s) as [|d t] eqn:E.
  - destruct (isSpace c) eqn:Hc; [reflexivity|].
    cbn [chr trimEnd]. now rewrite Hc.
  - change (trimEnd (String c (String d t)))
      with (match trimEnd (String d t) with
            | EmptyString => if isSpace c then EmptyString else chr c
            | String e u => String c (String e u)
            end).
    now rewrite IH.
Qed.

Lemma trimEnd_append (x y : string) :
  trimEnd (x ++ y) =
  match trimEnd y with
  | EmptyString => trimEnd x
  | t => x ++ t
  end.
Proof.
  induction x as [|c x IH]; cbn [append trimEnd].
  - now destruct (trimEnd y).
  - rewrite IH. destruct (trimEnd y) as [|d t]; [reflexivity|].
    now destruct x.
Qed.

Lemma trimStart_trimEnd (s : string) :
  trimStart s = s -> trimStart (trimEnd s) = trimEnd s.
Proof.
  destruct s as [|c s]; [reflexivity|].
  cbn [trimStart trimEnd].
  destruct (isSpace c) eqn:Hc.
  - intros H. exfalso.
    assert (L : forall u, String.length (trimStart u) <= String.length u).
    { induction u as [|d u IHu]; cbn [trimStart]; [lia|].
      destruct (isSpace d); cbn [String.length]; lia. }
    pose proof (L s) as Hs. rewrite H in Hs. cbn [String.length] in Hs. lia.
  - intros _. destruct (trimEnd s); cbn [chr trimStart]; now rewrite Hc.
Qed.

Lemma trimStart_idem (s : string) : trimStart (trimStart s) = trimStart s.
Proof.
  induction s as [|c s IH]; [reflexivity|].
  cbn [trimStart]. destruct (isSpace c) eqn:Hc; [exact IH|].
  cbn [trimStart]. now rewrite Hc.
Qed.

Lemma trim_fixed (s : string) :
  trimStart (trim s) = trim s /\ trimEnd (trim s) = trim s.
Proof.
  unfold trim. split.
  - apply trimStart_trimEnd, trimStart_idem.
  - apply trimEnd_idem.
Qed.

Lemma trim_joined (a b : string) :
  trimStart a = a -> trimEnd a = a -> trimStart b = b -> trimEnd b = b ->
  trim (a ++ " " ++ b) =
  match a, b with
  | EmptyString, _ => b
  | _, EmptyString => a
  | _, _ => a ++ " " ++ b
  end.
Proof.
  intros Ha1 Ha2 Hb1 Hb2. unfold trim.
  destruct a as [|c a].
  - cbn [append trimStart]. change (isSpace " ") with true. cbn iota.
    now rewrite Hb1, Hb2.
  - assert (Hc : isSpace c = false).
    { cbn [trimStart] in Ha1. destruct (isSpace c) eqn:Hc; [|reflexivity].
      exfalso.
      assert (L : forall u, String.length (trimStart u) <= String.length u).
      { induction u as [|d u IHu]; cbn [trimStart]; [lia|].
        destruct (isSpace d); cbn [String.length]; lia. }
      pose proof (L a) as Hs. rewrite Ha1 in Hs. cbn [String.length] in Hs. lia. }
    assert (E : trimStart (String c a ++ " " ++ b) = String c a ++ " " ++ b).
    { cbn [append trimStart]. now rewrite Hc. }
    rewrite E, trimEnd_append.
    assert (Eb : trimEnd (" " ++ b) =
                 match b with EmptyString => EmptyString | _ => " " ++ b end).
    { cbn [append trimEnd]. rewrite Hb2.
      destruct b; [reflexivity|reflexivity]. }
    rewrite Eb. destruct b; [exact Ha2 | reflexivity].
Qed.

(** X6. The Name cell of an exported donation is built from the two
    names with the white space around each removed: the first name alone
    when the last name is blank, the last name alone when the first name
    is blank, nothing when both are, and otherwise the two separated by
    one space.  It never starts or ends with white space. *)
Theorem donation_name_cell :
  forall (localeDate : string -> string) (don : Dashboard.Donation.t),
    let first := trim (Dashboard.Donation.first_name don) in
    let last := trim (Dashboard.Donation.last_name don) in
    let name := match first, last with
                | EmptyString, _ => last
                | _, EmptyString => first
                | _, _ => first ++ " " ++ last
                end in
    nth 0 (Dashboard.donationRow localeDate don) EmptyString = escapeCSV (JString name)
    /\ nth 0 (donationValues localeDate don) EmptyString = name
    /\ trim name = name.
Proof.
  intros localeDate don. cbn zeta.
  destruct (trim_fixed (Dashboard.Donation.first_name don)) as [Hf1 Hf2].
  destruct (trim_fixed (Dashboard.Donation.last_name don)) as [Hl1 Hl2].
  pose proof (trim_joined _ _ Hf1 Hf2 Hl1 Hl2) as E.
  split; [|split].
  - cbn [Dashboard.donationRow nth]. rewrite !orStr_empty. now rewrite E.
  - cbn [donationValues nth]. exact E.
  - rewrite <- E. unfold trim at 1.
    destruct (trim_fixed (trim (Dashboard.Donation.first_name don) ++ " "
                          ++ trim (Dashboard.Donation.last_name don))) as [H1 H2].
    now rewrite H1, H2.
Qed.

(** ** Donation submission: every outcome *)

(** X7. Whatever the gateway and the store answer, [onSubmit] ends
    normally and shows exactly one toast.  A donation row is handed to
    the store, the success toast is shown and the confirmation view is
    opened exactly when the payment was confirmed; in every other case
    none of the three happens and the toast is an error.  The in-flight
    flag ends cleared whenever the gateway objects were present, and is
    not touched otherwise. *)
Theorem onSubmit_persists_only_confirmed :
  forall (env : DonationForm.Env) (data : DonationForm.FormData)
         (st : DonationForm.State),
    let r := DonationForm.onSubmit env data st in
    outcomeOf r = Return tt
    /\ List.length (filter isToast (effectsOf r)) = 1
    /\ existsb isStoreInsert (effectsOf r) = paymentConfirmed env
    /\ existsb isToastSuccess (effectsOf r) = paymentConfirmed env
    /\ existsb isNavigate (effectsOf r) = paymentConfirmed env
    /\ existsb isToastError (effectsOf r) = negb (paymentConfirmed env)
    /\ DonationForm.isProcessingPayment (stateAfter r) =
       (if DonationForm.stripe env && DonationForm.elements env
        then false else DonationForm.isProcessingPayment st)
    /\ DonationForm.selectedAmount (stateAfter r) = DonationForm.selectedAmount st
    /\ DonationForm.customAmount (stateAfter r) = DonationForm.customAmount st.
Proof.
  intros [stripe elements intent card confirmation [insData insErr] now] data st.
  cbn zeta.
  destruct stripe, elements;
    try (repeat split; reflexivity).
  destruct intent as [secret|e]; [|repeat split; reflexivity].
  destruct card; [|repeat split; reflexivity].
  destruct confirmation as [e|pid]; [repeat split; reflexivity|].
  destruct insErr as [dbError|]; repeat split; reflexivity.
Qed.

(** X8. How a submission that does not reach a confirmed payment ends.
    Without the gateway objects the only effect is the toast that Stripe
    has not been initialized, and no request is made.  When the intent
    cannot be created the card is never submitted for confirmation; when
    the card widget is missing the error logged is that the card element
    was not found; when the gateway reports an error that error is logged.
    All three end with the Payment failed toast after the log line, and
    none hands a row to the store. *)
Theorem onSubmit_failure_traces :
  forall (data : DonationForm.FormData) (st : DonationForm.State)
         (intent : Outcome string) (card : bool)
         (confirmation : DonationForm.ConfirmResult) (insert : Reply unit)
         (now secret err : string),
    let intentRequest :=
      CreatePaymentIntent (DonationForm.amount data * 100)
        ("Donation to Tulip Kids Foundation - "
         ++ orStrOpt (DonationForm.designation data) "General") in
    let confirmRequest :=
      ConfirmCardPayment secret
        (DonationForm.firstName data ++ " " ++ DonationForm.lastName data)
        (DonationForm.email data) in
    let failed error :=
      [ConsoleError "Payment error:" error;
       ToastError "Payment failed" (Some "Please try again or contact support")] in
    (forall elements : bool,
        DonationForm.onSubmit
          (DonationForm.mkEnv false elements intent card confirmation insert now) data st
        = (Return tt, st, [ToastError "Stripe has not been initialized" None]))
    /\ (forall stripe : bool,
           DonationForm.onSubmit
             (DonationForm.mkEnv stripe false intent card confirmation insert now) data st
           = (Return tt, st, [ToastError "Stripe has not been initialized" None]))
    /\ effectsOf
         (DonationForm.onSubmit
            (DonationForm.mkEnv true true (Throw err) card confirmation insert now)
            data st)
       = intentRequest :: failed err
    /\ effectsOf
         (DonationForm.onSubmit
            (DonationForm.mkEnv true true (Return secret) false confirmation insert now)
            data st)
       = intentRequest :: failed "Card element not found"
    /\ effectsOf
         (DonationForm.onSubmit
            (DonationForm.mkEnv true true (Return secret) true
               (DonationForm.ConfirmError err) insert now)
            data st)
       = intentRequest :: confirmRequest :: failed err.
Proof.
  intros data st intent card confirmation insert now secret err. cbn zeta.
  split; [intros elements; reflexivity|].
  split; [intros [|]; reflexivity|].
  repeat split; reflexivity.
Qed.

(** ** Loading: every outcome *)

(** X9. A load whose two reads succeed replaces both lists by the rows
    read (by the empty list when a read carries no data), stores the
    statistics of exactly those rows, clears the loading flag, leaves the
    search term, the tab and the filters alone and shows nothing to the
    user.  A failed donations table check changes none of this: it only
    adds two console errors. *)
Theorem fetchData_success :
  forall (regData : option (list Dashboard.Registration.t))
         (donData : option (list Dashboard.Donation.t))
         (check : Reply unit) (st : Dashboard.State),
    let r := Dashboard.fetchData
               (Dashboard.mkFetchReplies (mkReply regData None) check
                  (mkReply donData None)) st in
    outcomeOf r = Return tt
    /\ stateAfter r =
       Dashboard.mkState (orEmpty donData) (orEmpty regData) false
         (Dashboard.searchTerm st) (Dashboard.activeTab st)
         (Dashboard.donationFilter st) (Dashboard.registrationFilter st)
         (statsOf (orEmpty regData) (orEmpty donData))
    /\ effectsOf r =
       match error check with
       | Some checkError =>
           [ConsoleError "Error checking donations table:" checkError;
            ConsoleError
              "This suggests the table might not exist or you lack permissions"
              EmptyString]
       | None => []
       end
    /\ filter userFacing (effectsOf r) = [].
Proof.
  intros regData donData [chkData [chkErr|]] st; cbn zeta;
    repeat split; reflexivity.
Qed.

(** X10. Whatever the store answers, a load ends normally with the
    loading flag cleared and never touches the search term, the active
    tab or the two status filters.  It shows the Failed to load data
    toast exactly when one of its two reads failed, and never any other
    toast, download or navigation.  The donations list is either left as
    it was or replaced by the rows read, and it is replaced only when
    both reads succeeded. *)
Theorem fetchData_every_outcome :
  forall (fr : Dashboard.FetchReplies) (st : Dashboard.State),
    let r := Dashboard.fetchData fr st in
    outcomeOf r = Return tt
    /\ Dashboard.isLoading (stateAfter r) = false
    /\ Dashboard.searchTerm (stateAfter r) = Dashboard.searchTerm st
    /\ Dashboard.activeTab (stateAfter r) = Dashboard.activeTab st
    /\ Dashboard.donationFilter (stateAfter r) = Dashboard.donationFilter st
    /\ Dashboard.registrationFilter (stateAfter r) = Dashboard.registrationFilter st
    /\ filter userFacing (effectsOf r) =
       (if readFailed fr
        then [ToastError "Failed to load data"
                (Some "Please try again or contact support")]
        else [])
    /\ Dashboard.donations (stateAfter r) =
       (if readFailed fr then Dashboard.donations st
        else orEmpty (data (Dashboard.donationsReply fr)))
    /\ Dashboard.statsData (stateAfter r) =
       (if readFailed fr then Dashboard.statsData st
        else statsOf (orEmpty (data (Dashboard.registrationsReply fr)))
               (orEmpty (data (Dashboard.donationsReply fr)))).
Proof.
  intros [[regData [regErr|]] [chkData [chkErr|]] [donData [donErr|]]] st;
    cbn zeta; repeat split; reflexivity.
Qed.

(** ** Statistics: the counts *)

Lemma filter_three_way {A} (p q : A -> bool) (l : list A) :
  (forall x, p x && q x = false) ->
  List.length (filter p l) + List.length (filter q l)
  + List.length (filter (fun x => negb (p x) && negb (q x)) l)
  = List.length l.
Proof.
  intros Hpq. induction l as [|x l IH]; [reflexivity|].
  cbn [filter]. specialize (Hpq x).
  destruct (p x), (q x); cbn [negb andb List.length] in *;
    try discriminate; lia.
Qed.

(** X11. The count totals of [calculateStats].  The registration and
    donation totals are the lengths of the two lists; the paid and
    pending counts never overlap, and together with the registrations
    whose status is neither paid nor pending they add up to the
    registration total.  The statistics depend on the two lists only, and
    computing them changes no list. *)
Theorem calculateStats_counts :
  forall (R : list Dashboard.Registration.t) (D : list Dashboard.Donation.t)
         (st : Dashboard.State),
    let after := stateAfter (Dashboard.calculateStats R D st) in
    let stats := Dashboard.statsData after in
    stats = statsOf R D
    /\ Dashboard.totalRegistrations stats = Z.of_nat (List.length R)
    /\ Dashboard.totalDonations stats = Z.of_nat (List.length D)
    /\ Dashboard.totalPaid stats = Z.of_nat (List.length (paidOnly R))
    /\ (Dashboard.totalPaid stats + Dashboard.totalPending stats
        + Z.of_nat (List.length (filter otherStatus R))
        = Dashboard.totalRegistrations stats)%Z
    /\ (0 <= Dashboard.totalPaid stats <= Dashboard.totalRegistrations stats)%Z
    /\ (0 <= Dashboard.totalPending stats <= Dashboard.totalRegistrations stats)%Z
    /\ Dashboard.registrations after = Dashboard.registrations st
    /\ Dashboard.donations after = Dashboard.donations st.
Proof.
  intros R D st. cbn zeta.
  assert (P : List.length (filter isPaid R) + List.length (filter isPending R)
              + List.length (filter otherStatus R) = List.length R).
  { apply (filter_three_way isPaid isPending). intros reg.
    unfold isPaid, isPending.
    destruct (String.eqb_spec (Dashboard.Registration.payment_status reg) "paid") as [-> |];
      reflexivity. }
  cbn. unfold Dashboard.len. fold isPaid. fold isPending. unfold paidOnly.
  repeat split; try reflexivity; lia.
Qed.

(** ** Status updates: the success path *)

(** X12. After a status update the store accepts, each handler shows
    its success toast and then reloads.  When the reload's reads succeed
    the state is exactly what that reload alone gives from the state
    before the click, so nothing of the local patch survives it: for a
    registration update it is enough that the registrations read
    succeeds, for a donation update both reads must. *)
Theorem successful_update_is_overwritten_by_reload :
  forall (random36 now id : string) (replyData : option unit)
         (regData : option (list Dashboard.Registration.t))
         (check : Reply unit) (st : Dashboard.State),
    (forall (status : Dashboard.PaymentStatus)
            (dons : Reply (list Dashboard.Donation.t)),
        let reload := Dashboard.mkFetchReplies (mkReply regData None) check dons in
        let r := Dashboard.handleUpdatePaymentStatus random36 now
                   (mkReply replyData None) reload id status st in
        stateAfter r = stateAfter (Dashboard.fetchData reload st)
        /\ effectsOf r =
           ToastSuccess ("Payment status updated to "
                         ++ Dashboard.paymentStatusName status) None
           :: effectsOf (Dashboard.fetchData reload st))
    /\ (forall (status : Dashboard.DonationStatus)
               (donData : option (list Dashboard.Donation.t)),
           let reload := Dashboard.mkFetchReplies (mkReply regData None) check
                           (mkReply donData None) in
           let r := Dashboard.handleUpdateDonationStatus now
                      (mkReply replyData None) reload id status st in
           stateAfter r = stateAfter (Dashboard.fetchData reload st)
           /\ effectsOf r =
              ToastSuccess ("Donation status updated to "
                            ++ Dashboard.donationStatusName status) None
              :: effectsOf (Dashboard.fetchData reload st)).
Proof.
  intros random36 now id replyData regData [chkData [chkErr|]] st; split.
  - intros status [donData [donErr|]]; split; reflexivity.
  - intros status donData; split; reflexivity.
  - intros status [donData [donErr|]]; split; reflexivity.
  - intros status donData; split; reflexivity.
Qed.

Lemma map_conditional {A B} (key : A -> bool) (f : A -> A) (g : A -> B) (l : list A) :
  (forall x, g (f x) = g x) ->
  map g (map (fun x => if key x then f x else x) l) = map g l.
Proof.
  intros H. rewrite map_map. apply map_ext. intros x.
  destruct (key x); [apply H | reflexivity].
Qed.

(** X13. What a local patch can change.  When the store accepts an
    update and the reload then fails before its first write, the local
    list is the old list with the patch spread over the records of the
    given id: same length and order; identity, contact, counts, amounts,
    creation date and every other field no handler writes are unchanged in
    every record; records of any other id are unchanged altogether; and a
    donation update keeps each certificate flag.  The statistics are not
    recomputed by the patch: they stay as they were until a reload
    succeeds. *)
Theorem local_patch_touches_status_only :
  forall (random36 now id err : string) (replyData : option unit)
         (check : Reply unit) (st : Dashboard.State),
    (forall (status : Dashboard.PaymentStatus)
            (dons : Reply (list Dashboard.Donation.t)),
        let after :=
          stateAfter
            (Dashboard.handleUpdatePaymentStatus random36 now (mkReply replyData None)
               (Dashboard.mkFetchReplies (mkReply None (Some err)) check dons)
               id status st) in
        map registrationFixed (Dashboard.registrations after)
          = map registrationFixed (Dashboard.registrations st)
        /\ map Dashboard.Registration.payment_status (Dashboard.registrations after)
           = map (fun reg =>
                    if Dashboard.Registration.id reg =? id
                    then Dashboard.paymentStatusName status
                    else Dashboard.Registration.payment_status reg)
                 (Dashboard.registrations st)
        /\ filter (fun reg => negb (Dashboard.Registration.id reg =? id))
             (Dashboard.registrations after)
           = filter (fun reg => negb (Dashboard.Registration.id reg =? id))
               (Dashboard.registrations st)
        /\ Dashboard.donations after = Dashboard.donations st
        /\ Dashboard.statsData after = Dashboard.statsData st)
    /\ (forall (status : Dashboard.DonationStatus)
               (dons : Reply (list Dashboard.Donation.t)),
           let after :=
             stateAfter
               (Dashboard.handleUpdateDonationStatus now (mkReply replyData None)
                  (Dashboard.mkFetchReplies (mkReply None (Some err)) check dons)
                  id status st) in
           map donationFixed (Dashboard.donations after)
             = map donationFixed (Dashboard.donations st)
           /\ map Dashboard.Donation.certificate_sent (Dashboard.donations after)
              = map Dashboard.Donation.certificate_sent (Dashboard.donations st)
           /\ map Dashboard.Donation.status (Dashboard.donations after)
              = map (fun don =>
                       if Dashboard.Donation.id don =? id
                       then Dashboard.donationStatusName status
                       else Dashboard.Donation.status don)
                    (Dashboard.donations st)
           /\ filter (fun don => negb (Dashboard.Donation.id don =? id))
                (Dashboard.donations after)
              = filter (fun don => negb (Dashboard.Donation.id don =? id))
                  (Dashboard.donations st)
           /\ Dashboard.registrations after = Dashboard.registrations st
           /\ Dashboard.statsData after = Dashboard.statsData st).
Proof.
  intros random36 now id err replyData check st.
  split.
  - intros status dons. cbn zeta.
    change (Dashboard.registrations
              (stateAfter
                 (Dashboard.handleUpdatePaymentStatus random36 now (mkReply replyData None)
                    (Dashboard.mkFetchReplies (mkReply None (Some err)) check dons)
                    id status st)))
      with (locallyPatched id (Dashboard.paymentUpdateData random36 now status)
              (Dashboard.registrations st)).
    unfold locallyPatched.
    split; [apply map_conditional; reflexivity|].
    split; [rewrite map_map; apply map_ext; intros reg;
            destruct (Dashboard.Registration.id reg =? id); reflexivity|].
    split; [|split; reflexivity].
    induction (Dashboard.registrations st) as [|reg regs IH]; [reflexivity|].
    cbn [map filter].
    destruct (Dashboard.Registration.id reg =? id) eqn:K.
    + cbn [Dashboard.spreadPayment Dashboard.Registration.id]. rewrite K.
      cbn [negb]. exact IH.
    + rewrite K. cbn [negb]. now rewrite IH.
  - intros status dons. cbn zeta.
    change (Dashboard.donations
              (stateAfter
                 (Dashboard.handleUpdateDonationStatus now (mkReply replyData None)
                    (Dashboard.mkFetchReplies (mkReply None (Some err)) check dons)
                    id status st)))
      with (onDonation id
              (fun don => Dashboard.spreadDonation don
                            (Dashboard.donationUpdateData now status))
              (Dashboard.donations st)).
    unfold onDonation.
    split; [apply map_conditional; reflexivity|].
    split; [apply map_conditional; reflexivity|].
    split; [rewrite map_map; apply map_ext; intros don;
            destruct (Dashboard.Donation.id don =? id); reflexivity|].
    split; [|split; reflexivity].
    induction (Dashboard.donations st) as [|don dons' IH]; [reflexivity|].
    cbn [map filter].
    destruct (Dashboard.Donation.id don =? id) eqn:K.
    + cbn [Dashboard.spreadDonation Dashboard.Donation.id]. rewrite K.
      cbn [negb]. exact IH.
    + rewrite K. cbn [negb]. now rewrite IH.
Qed.

(** ** After an update: what the tables show *)

(** X14. A registration marked paid has the Paid badge, offers the
    Mark as Pending action, is listed under the paid filter exactly when
    it matches the search term, and is never listed under the pending
    filter; marked pending it is the other way round.  The update does not
    change whether the record matches a search term.  Applying the action
    a row offers always turns the offered action into the opposite one. *)
Theorem updated_registration_in_views :
  forall (reg : Dashboard.Registration.t) (random36 now term : string),
    let paid := Dashboard.spreadPayment reg
                  (Dashboard.paymentUpdateData random36 now Dashboard.StatusPaid) in
    let pending := Dashboard.spreadPayment reg
                     (Dashboard.paymentUpdateData random36 now Dashboard.StatusPending) in
    let offered := Dashboard.spreadPayment reg
                     (Dashboard.paymentUpdateData random36 now
                        (View.registrationAction reg)) in
    (View.registrationBadge paid = "Paid"
     /\ View.registrationAction paid = Dashboard.StatusPending
     /\ Dashboard.registrationVisible term "paid" paid = registrationMatchesSearch term reg
     /\ Dashboard.registrationVisible term "pending" paid = false
     /\ Dashboard.registrationVisible term "all" paid = registrationMatchesSearch term reg)
    /\ (View.registrationBadge pending = "Pending"
        /\ View.registrationAction pending = Dashboard.StatusPaid
        /\ Dashboard.registrationVisible term "pending" pending
           = registrationMatchesSearch term reg
        /\ Dashboard.registrationVisible term "paid" pending = false
        /\ Dashboard.registrationVisible term "all" pending
           = registrationMatchesSearch term reg)
    /\ View.registrationAction offered =
       match View.registrationAction reg with
       | Dashboard.StatusPaid => Dashboard.StatusPending
       | Dashboard.StatusPending => Dashboard.StatusPaid
       end.
Proof.
  intros reg random36 now term. cbn zeta.
  split; [|split].
  - repeat split; try reflexivity;
      rewrite registrationVisible_split; unfold registrationHasStatus;
      cbn; rewrite ?andb_true_r, ?andb_false_r; reflexivity.
  - repeat split; try reflexivity;
      rewrite registrationVisible_split; unfold registrationHasStatus;
      cbn; rewrite ?andb_true_r, ?andb_false_r; reflexivity.
  - unfold View.registrationAction.
    destruct (Dashboard.Registration.payment_status reg =? "pending"); reflexivity.
Qed.

(** X15. A registration whose status is neither paid nor pending is
    listed under the all filter only (never under paid or pending), shows
    the Pending badge, and is offered the Mark as Pending action. *)
Theorem unrecognised_status_row :
  forall (reg : Dashboard.Registration.t) (term : string),
    otherStatus reg = true ->
    Dashboard.registrationVisible term "paid" reg = false
    /\ Dashboard.registrationVisible term "pending" reg = false
    /\ Dashboard.registrationVisible term "all" reg = registrationMatchesSearch term reg
    /\ View.registrationBadge reg = "Pending"
    /\ View.registrationAction reg = Dashboard.StatusPending.
Proof.
  intros reg term H.
  unfold otherStatus, isPaid, isPending in H.
  apply andb_true_iff in H as [Hpaid Hpending].
  apply negb_true_iff in Hpaid. apply negb_true_iff in Hpending.
  rewrite !registrationVisible_split.
  unfold registrationHasStatus, View.registrationBadge, View.registrationAction.
  rewrite Hpaid, Hpending. cbn.
  rewrite !andb_false_r, andb_true_r. repeat split; reflexivity.
Qed.

Lemma unrecognised_status_row_witness :
  Dashboard.registrationVisible "ann" "paid" refundedRegistration = false
  /\ Dashboard.registrationVisible "ann" "pending" refundedRegistration = false
  /\ Dashboard.registrationVisible "ann" "all" refundedRegistration
     = registrationMatchesSearch "ann" refundedRegistration
  /\ View.registrationBadge refundedRegistration = "Pending"
  /\ View.registrationAction refundedRegistration = Dashboard.StatusPending.
Proof.
  apply (unrecognised_status_row refundedRegistration "ann").
  reflexivity.
Defined.

(** ** Sending a certificate *)


(** ** Searching and filtering: edge behaviour *)

Lemma includes_empty (s : string) : includes s EmptyString = true.
Proof. destruct s; reflexivity. Qed.

Lemma lowerChar_idem (c : ascii) : lowerChar (lowerChar c) = lowerChar c.
Proof.
  destruct c as [[|] [|] [|] [|] [|] [|] [|] [|]]; reflexivity.
Qed.

Lemma toLowerCase_idem (s : string) : toLowerCase (toLowerCase s) = toLowerCase s.
Proof.
  induction s as [|c s IH]; [reflexivity|].
  cbn [toLowerCase]. now rewrite lowerChar_idem, IH.
Qed.

Lemma filter_all {A} (p : A -> bool) (l : list A) :
  (forall x, p x = true) -> filter p l = l.
Proof.
  intros H. induction l as [|x l IH]; [reflexivity|].
  cbn [filter]. now rewrite H, IH.
Qed.

(** X17. With an empty search term nothing is hidden by the search:
    under the all filter each view is the whole list, in its order, and
    under a status filter it is exactly the records of that status. *)
Theorem empty_search_shows_all :
  forall (dons : list Dashboard.Donation.t) (regs : list Dashboard.Registration.t)
         (loading : bool) (tab donFilter regFilter : string) (stats : Dashboard.Stats),
    Dashboard.filteredRegistrations
      (Dashboard.mkState dons regs loading EmptyString tab donFilter "all" stats) = regs
    /\ Dashboard.filteredDonations
         (Dashboard.mkState dons regs loading EmptyString tab "all" regFilter stats) = dons
    /\ Dashboard.filteredRegistrations
         (Dashboard.mkState dons regs loading EmptyString tab donFilter regFilter stats)
       = filter (registrationHasStatus regFilter) regs
    /\ Dashboard.filteredDonations
         (Dashboard.mkState dons regs loading EmptyString tab donFilter regFilter stats)
       = filter (donationHasStatus donFilter) dons.
Proof.
  intros dons regs loading tab donFilter regFilter stats.
  unfold Dashboard.filteredRegistrations, Dashboard.filteredDonations.
  cbn [Dashboard.searchTerm Dashboard.registrationFilter Dashboard.donationFilter
       Dashboard.registrations Dashboard.donations].
  assert (R : forall flt reg,
             Dashboard.registrationVisible EmptyString flt reg
             = registrationHasStatus flt reg).
  { intros flt reg. rewrite registrationVisible_split.
    unfold registrationMatchesSearch. cbn [toLowerCase].
    now rewrite includes_empty. }
  assert (D : forall flt don,
             Dashboard.donationVisible EmptyString flt don = donationHasStatus flt don).
  { intros flt don. rewrite donationVisible_split.
    unfold donationMatchesSearch. cbn [toLowerCase].
    now rewrite includes_empty. }
  split; [apply filter_all; intros reg; now rewrite R|].
  split; [apply filter_all; intros don; now rewrite D|].
  split; apply filter_ext; auto.
Qed.

(** X18. The search ignores the case of the search term: two terms
    with the same lower-case form select the same registrations and the
    same donations under every status filter, and a term can always be
    replaced by its lower-case form. *)
Theorem search_ignores_term_case :
  (forall (term flt : string) (reg : Dashboard.Registration.t)
          (don : Dashboard.Donation.t),
      Dashboard.registrationVisible (toLowerCase term) flt reg
      = Dashboard.registrationVisible term flt reg
      /\ Dashboard.donationVisible (toLowerCase term) flt don
         = Dashboard.donationVisible term flt don)
  /\ (forall (term term' : string) (st : Dashboard.State),
         toLowerCase term = toLowerCase term' ->
         Dashboard.filteredRegistrations (stateAfter (Dashboard.handleSearch term st))
         = Dashboard.filteredRegistrations (stateAfter (Dashboard.handleSearch term' st))
         /\ Dashboard.filteredDonations (stateAfter (Dashboard.handleSearch term st))
            = Dashboard.filteredDonations (stateAfter (Dashboard.handleSearch term' st))).
Proof.
  split.
  - intros term flt reg don.
    unfold Dashboard.registrationVisible, Dashboard.donationVisible.
    now rewrite toLowerCase_idem.
  - intros term term' st H.
    unfold Dashboard.filteredRegistrations, Dashboard.filteredDonations,
      Dashboard.registrationVisible, Dashboard.donationVisible.
    cbn. now rewrite H.
Qed.

Lemma search_ignores_term_case_witness :
  Dashboard.filteredRegistrations
    (stateAfter (Dashboard.handleSearch "ANN" twoRegistrationsState))
  = Dashboard.filteredRegistrations
      (stateAfter (Dashboard.handleSearch "Ann" twoRegistrationsState))
  /\ Dashboard.filteredDonations
       (stateAfter (Dashboard.handleSearch "ANN" twoRegistrationsState))
     = Dashboard.filteredDonations
         (stateAfter (Dashboard.handleSearch "Ann" twoRegistrationsState)).
Proof.
  apply (proj2 search_ignores_term_case "ANN" "Ann" twoRegistrationsState).
  reflexivity.
Defined.

(** X19. For one search term, the paid view and the pending view are
    the paid and the pending records of the all view, in its order; they
    share no record, and together with the all view's records of any other
    status they account for every record of the all view.  Every record
    shown under a status filter other than all has exactly that status. *)
Theorem status_views_partition :
  forall (term : string) (regs : list Dashboard.Registration.t),
    let view flt := filter (Dashboard.registrationVisible term flt) regs in
    view "paid" = filter isPaid (view "all")
    /\ view "pending" = filter isPending (view "all")
    /\ filter isPending (view "paid") = []
    /\ List.length (view "paid") + List.length (view "pending")
       + List.length (filter otherStatus (view "all"))
       = List.length (view "all")
    /\ (forall flt : string,
           forallb (fun reg => (flt =? "all")
                               || (Dashboard.Registration.payment_status reg =? flt))
                   (view flt) = true).
Proof.
  intros term regs. cbn zeta.
  assert (P : filter (Dashboard.registrationVisible term "paid") regs
              = filter isPaid (filter (Dashboard.registrationVisible term "all") regs)).
  { rewrite filter_filter_and. apply filter_ext. intros reg.
    rewrite !registrationVisible_split. unfold registrationHasStatus, isPaid.
    cbn. now rewrite andb_true_r. }
  assert (Q : filter (Dashboard.registrationVisible term "pending") regs
              = filter isPending (filter (Dashboard.registrationVisible term "all") regs)).
  { rewrite filter_filter_and. apply filter_ext. intros reg.
    rewrite !registrationVisible_split. unfold registrationHasStatus, isPending.
    cbn. now rewrite andb_true_r. }
  split; [exact P|]. split; [exact Q|].
  split.
  { rewrite P, filter_filter_and.
    transitivity (filter (fun _ : Dashboard.Registration.t => false)
                    (filter (Dashboard.registrationVisible term "all") regs)).
    - apply filter_ext. intros reg. unfold isPaid, isPending.
      destruct (String.eqb_spec (Dashboard.Registration.payment_status reg) "paid")
        as [-> |]; reflexivity.
    - clear P Q.
      induction (filter (Dashboard.registrationVisible term "all") regs) as [|reg l IH];
        [reflexivity | exact IH]. }
  split.
  { rewrite P, Q. apply (filter_three_way isPaid isPending). intros reg.
    unfold isPaid, isPending.
    destruct (String.eqb_spec (Dashboard.Registration.payment_status reg) "paid")
      as [-> |]; reflexivity. }
  intros flt. apply forallb_forall. intros reg Hin.
  apply filter_In in Hin as [_ Hvis].
  rewrite registrationVisible_split in Hvis.
  apply andb_true_iff in Hvis as [_ Hs]. exact Hs.
Qed.

(** ** How the operations compose *)

(** X20. The donations export has no certificate column and the
    registrations export reads no donation: sending a certificate, whether
    the store accepts it or not, changes neither export. *)
Theorem certificate_does_not_change_exports :
  forall (localeDate : string -> string) (reply : Reply unit) (id : string)
         (kind : Dashboard.ExportKind) (st : Dashboard.State),
    exportOf localeDate kind
      (wholeList (stateAfter (Dashboard.handleSendCertificate reply id st)))
    = exportOf localeDate kind (wholeList st).
Proof.
  intros localeDate [replyData [err|]] id kind st; [reflexivity|].
  destruct kind; [reflexivity|].
  unfold exportOf, wholeList. cbn [snd]. f_equal.
  change (Dashboard.donations
            (stateAfter (Dashboard.handleSendCertificate (mkReply replyData None) id st)))
    with (onDonation id Dashboard.spreadCertificate (Dashboard.donations st)).
  unfold onDonation. rewrite map_map. apply map_ext. intros don.
  destruct (Dashboard.Donation.id don =? id); reflexivity.
Qed.

(** X21. A donation marked completed has the Completed badge, offers
    the Mark Pending action, is listed under the completed filter exactly
    when it matches the search term and never under the pending filter;
    marked pending it is the other way round.  The update changes neither
    whether the record matches a search term nor its certificate badge,
    button or label. *)
Theorem updated_donation_in_views :
  forall (don : Dashboard.Donation.t) (now term : string),
    let completed := Dashboard.spreadDonation don
                       (Dashboard.donationUpdateData now Dashboard.DonationCompleted) in
    let pending := Dashboard.spreadDonation don
                     (Dashboard.donationUpdateData now Dashboard.DonationPending) in
    (View.donationBadge completed = "Completed"
     /\ View.donationAction completed = Dashboard.DonationPending
     /\ Dashboard.donationVisible term "completed" completed
        = donationMatchesSearch term don
     /\ Dashboard.donationVisible term "pending" completed = false)
    /\ (View.donationBadge pending = "Pending"
        /\ View.donationAction pending = Dashboard.DonationCompleted
        /\ Dashboard.donationVisible term "pending" pending
           = donationMatchesSearch term don
        /\ Dashboard.donationVisible term "completed" pending = false)
    /\ (forall status : Dashboard.DonationStatus,
           let updated := Dashboard.spreadDonation don
                            (Dashboard.donationUpdateData now status) in
           View.certificateDisabled updated = View.certificateDisabled don
           /\ View.certificateLabel updated = View.certificateLabel don
           /\ View.certificateBadge updated = View.certificateBadge don
           /\ Dashboard.donationVisible term "all" updated
              = donationMatchesSearch term don).
Proof.
  intros don now term. cbn zeta.
  split; [|split].
  - repeat split; try reflexivity;
      rewrite donationVisible_split; unfold donationHasStatus;
      cbn; rewrite ?andb_true_r, ?andb_false_r; reflexivity.
  - repeat split; try reflexivity;
      rewrite donationVisible_split; unfold donationHasStatus;
      cbn; rewrite ?andb_true_r, ?andb_false_r; reflexivity.
  - intros status. repeat split; reflexivity.
Qed.

(** X22. What an updated registration exports.  After it is marked
    paid its Status cell is paid and its Transaction ID cell is the new
    identifier, which begins with tx_ and so is never the N/A placeholder;
    after it is marked pending its Status cell is pending and its
    Transaction ID cell is N/A.  The other nine cells are those of the
    record before the update. *)
Theorem updated_registration_export :
  forall (localeDate : string -> string) (reg : Dashboard.Registration.t)
         (random36 now : string),
    let cells status :=
      registrationValues localeDate
        (Dashboard.spreadPayment reg (Dashboard.paymentUpdateData random36 now status)) in
    let before := registrationValues localeDate reg in
    nth 7 (cells Dashboard.StatusPaid) EmptyString = "paid"
    /\ nth 8 (cells Dashboard.StatusPaid) EmptyString = "tx_" ++ jsSubstring 2 11 random36
    /\ nth 7 (cells Dashboard.StatusPending) EmptyString = "pending"
    /\ nth 8 (cells Dashboard.StatusPending) EmptyString = "N/A"
    /\ (forall status : Dashboard.PaymentStatus,
           firstn 7 (cells status) = firstn 7 before
           /\ skipn 9 (cells status) = skipn 9 before).
Proof.
  intros localeDate reg random36 now. cbn zeta.
  repeat split; try reflexivity.
Qed.

(** X23. After a load whose two reads succeed, the cards agree with the
    lists on screen: the registration and donation totals are the lengths
    of the two lists, the participant total is the sum of the Participants
    column over all registrations, and the paid and pending counts are the
    numbers of rows showing under the paid and pending filters with an
    empty search. *)
Theorem cards_agree_with_lists_after_load :
  forall (regData : option (list Dashboard.Registration.t))
         (donData : option (list Dashboard.Donation.t))
         (check : Reply unit) (st : Dashboard.State),
    let after :=
      stateAfter
        (Dashboard.fetchData
           (Dashboard.mkFetchReplies (mkReply regData None) check (mkReply donData None))
           st) in
    let stats := Dashboard.statsData after in
    Dashboard.totalRegistrations stats
      = Z.of_nat (List.length (Dashboard.registrations after))
    /\ Dashboard.totalDonations stats
       = Z.of_nat (List.length (Dashboard.donations after))
    /\ Dashboard.totalParticipants stats
       = sumZ (map View.participantsCell (Dashboard.registrations after))
    /\ Dashboard.totalPaid stats
       = Z.of_nat (List.length
                     (filter (Dashboard.registrationVisible EmptyString "paid")
                        (Dashboard.registrations after)))
    /\ Dashboard.totalPending stats
       = Z.of_nat (List.length
                     (filter (Dashboard.registrationVisible EmptyString "pending")
                        (Dashboard.registrations after))).
Proof.
  intros regData donData check st. cbn zeta.
  destruct (fetchData_success regData donData check st) as [_ [E _]].
  rewrite E. cbn [Dashboard.statsData Dashboard.registrations Dashboard.donations].
  assert (V : forall flt reg,
             Dashboard.registrationVisible EmptyString flt reg
             = registrationHasStatus flt reg).
  { intros flt reg. rewrite registrationVisible_split.
    unfold registrationMatchesSearch. cbn [toLowerCase].
    now rewrite includes_empty. }
  split; [reflexivity|]. split; [reflexivity|].
  split.
  { unfold statsOf. cbn. unfold View.participantsCell.
    rewrite (fold_left_ext _
               (fun sum reg => (sum + (orZero (Dashboard.Registration.adult_count reg)
                                       + orZero (Dashboard.Registration.kids_count reg)))%Z)).
    - now rewrite fold_left_sum.
    - intros s x. lia. }
  split.
  - unfold statsOf. cbn. unfold Dashboard.len. do 2 f_equal.
    apply filter_ext. intros reg. now rewrite V.
  - unfold statsOf. cbn. unfold Dashboard.len. do 2 f_equal.
    apply filter_ext. intros reg. now rewrite V.
Qed.
